(** * COVID-19 dashboard (app.py): a shallow embedding and its properties

    The script is a single Streamlit page.  Its own logic is the reshaping of
    the historical JSON into a date-indexed series, the derived columns
    [new] and [ma], the guard around the seasonal decomposition, the KPI
    strings and the CSV export.  The Python and pandas primitives it calls
    are modelled by their documented behaviour in the modules [Py] and
    [Pandas], the additive decomposition of statsmodels in [Statsmodels];
    the script itself is in [App], where the decomposition routine is a
    parameter.  [Spec] holds the vocabulary of the specification and the
    data of the examples.

    Numbers: the counts of the API are integers, so a float column that holds
    counts or their differences is a list of [option Z] ([None] is NaN) and
    the rolling mean is a list of [option Q]; float rounding is not modelled.
    Strings are ASCII text. *)

From Stdlib Require Import List ZArith QArith String Ascii Bool Arith Lia.
From Stdlib Require Import DecimalString Permutation Sorted.
Import ListNotations.

Local Open Scope string_scope.
Local Open Scope list_scope.
Local Open Scope Z_scope.

(** ** Python: exceptions, results, strptime, integer formatting *)

Module Py.

(** The exceptions the modelled calls can raise. *)
Inductive exn : Type :=
| ValueError_no_match (val : string)        (* time data doesn't match format *)
| ValueError_unconverted (val : string)     (* unconverted data remains *)
| ValueError_day_out_of_range (val : string)
| ValueError_duplicate_labels               (* cannot reindex on an axis with duplicate labels *)
| ValueError_range_of_nat                   (* neither start nor end can be NaT *)
| ValueError_int_of_nan                     (* cannot convert float NaN to integer *)
| TypeError (what : string)
| KeyError (key : string)
| IndexError
| LibraryError (msg : string).              (* raised inside statsmodels *)

Inductive result (A : Type) : Type :=
| Ok (a : A)
| Raise (e : exn).
Arguments Ok {A} a.
Arguments Raise {A} e.

Definition rbind {A B} (r : result A) (k : A -> result B) : result B :=
  match r with
  | Ok a => k a
  | Raise e => Raise e
  end.

(** [mapM f l]: apply [f] left to right, stop at the first exception. *)
Fixpoint mapM {A B} (f : A -> result B) (l : list A) : result (list B) :=
  match l with
  | [] => Ok []
  | x :: r => rbind (f x) (fun y => rbind (mapM f r) (fun ys => Ok (y :: ys)))
  end.

(** *** Calendar dates *)

Record Date : Type := mkDate { year : Z; month : Z; day : Z }.

Definition is_leap (y : Z) : bool :=
  ((y mod 4 =? 0) && negb (y mod 100 =? 0)) || (y mod 400 =? 0).

Definition days_in_month (y m : Z) : Z :=
  if m =? 2 then (if is_leap y then 29 else 28)
  else if (m =? 4) || (m =? 6) || (m =? 9) || (m =? 11) then 30
  else 31.

Definition days_before_year (y : Z) : Z :=
  let p := y - 1 in p * 365 + p / 4 - p / 100 + p / 400.

Fixpoint days_before_month_aux (y : Z) (k : nat) : Z :=
  match k with
  | O => 0
  | S k' => days_before_month_aux y k' + days_in_month y (Z.of_nat k)
  end.

Definition days_before_month (y m : Z) : Z :=
  days_before_month_aux y (Z.to_nat (m - 1)).

(** [date.toordinal()]: 1 for 0001-01-01. *)
Definition toordinal (d : Date) : Z :=
  days_before_year (year d) + days_before_month (year d) (month d) + day d.

(** *** strptime with the format "%m/%d/%y"

    The format compiles to the regular expression
    [(1[0-2]|0[1-9]|[1-9])/(3[0-1]|[1-2]\d|0[1-9]|[1-9]| [1-9])/(\d\d)];
    each directive yields its alternatives in the order the regex tries them
    and the first complete match wins. *)

Definition digit (c : ascii) : option Z :=
  let n := nat_of_ascii c in
  if ((48 <=? n) && (n <=? 57))%nat then Some (Z.of_nat (n - 48)) else None.

Definition digit_in (lo hi : Z) (c : ascii) : option Z :=
  match digit c with
  | Some v => if (lo <=? v) && (v <=? hi) then Some v else None
  | None => None
  end.

Definition alt1 (c0 : ascii) (base lo hi : Z) (s : string) : list (Z * string) :=
  match s with
  | String c1 (String c2 r) =>
      if Ascii.eqb c1 c0 then
        match digit_in lo hi c2 with
        | Some v => [(base + v, r)]
        | None => []
        end
      else []
  | _ => []
  end.

Definition alt_digit (lo hi : Z) (s : string) : list (Z * string) :=
  match s with
  | String c r =>
      match digit_in lo hi c with
      | Some v => [(v, r)]
      | None => []
      end
  | _ => []
  end.

(** %m = 1[0-2]|0[1-9]|[1-9] *)
Definition re_m (s : string) : list (Z * string) :=
  alt1 "1" 10 0 2 s ++ alt1 "0" 0 1 9 s ++ alt_digit 1 9 s.

(** %d = 3[0-1]|[1-2]\d|0[1-9]|[1-9]| [1-9] *)
Definition re_d (s : string) : list (Z * string) :=
  alt1 "3" 30 0 1 s ++ alt1 "1" 10 0 9 s ++ alt1 "2" 20 0 9 s
  ++ alt1 "0" 0 1 9 s ++ alt_digit 1 9 s ++ alt1 " " 0 1 9 s.

(** %y = \d\d *)
Definition re_y (s : string) : list (Z * string) :=
  match s with
  | String c1 (String c2 r) =>
      match digit c1, digit c2 with
      | Some a, Some b => [(10 * a + b, r)]
      | _, _ => []
      end
  | _ => []
  end.

Definition re_lit (c0 : ascii) (s : string) : list string :=
  match s with
  | String c r => if Ascii.eqb c c0 then [r] else []
  | _ => []
  end.

(** All the ways the regex matches a prefix of [s], in backtracking order. *)
Definition format_regex (s : string) : list (Z * Z * Z * string) :=
  flat_map (fun '(m, s1) =>
  flat_map (fun s2 =>
  flat_map (fun '(d, s3) =>
  flat_map (fun s4 =>
  map (fun '(y, s5) => (m, d, y, s5)) (re_y s4))
  (re_lit "/" s3)) (re_d s2)) (re_lit "/" s1)) (re_m s).

Definition strptime (val : string) : result Date :=
  match format_regex val with
  | [] => Raise (ValueError_no_match val)
  | (m, d, y, rest) :: _ =>
      if negb (String.eqb rest "") then Raise (ValueError_unconverted val)
      else
        let yr := if y <=? 68 then 2000 + y else 1900 + y in
        if d <=? days_in_month yr m then Ok (mkDate yr m d)
        else Raise (ValueError_day_out_of_range val)
  end.

(** *** Integer formatting: [format(n, ",")] *)

(** [ds] holds the decimal digits least significant first; [k] digits were
    already emitted in the current group of three. *)
Fixpoint commas (k : nat) (ds : list ascii) : list ascii :=
  match ds with
  | [] => []
  | d :: r =>
      if (k =? 3)%nat then "," %char :: d :: commas 1 r
      else d :: commas (S k) r
  end.

Definition digits (n : Z) : list ascii :=
  list_ascii_of_string (NilZero.string_of_uint (N.to_uint (Z.abs_N n))).

Definition format_comma (n : Z) : string :=
  String.append (if n <? 0 then "-" else "")
    (string_of_list_ascii (rev (commas 0 (rev (digits n))))).

(** *** JSON values as Python objects *)

#[local] Set Warnings "-register-all".

Inductive Value : Type :=
| NaN                                   (* a missing key, null, None *)
| Num (z : Z)
| Str (s : string)
| Dict (kv : list (string * Value)).

Definition isna (v : Value) : bool :=
  match v with NaN => true | _ => false end.

Fixpoint get {V : Type} (k : string) (d : list (string * V)) : option V :=
  match d with
  | [] => None
  | (k', v) :: r => if String.eqb k k' then Some v else get k r
  end.

(** [int(x)] for a cell of a numeric column. Numeric strings are not
    modelled: the API sends numbers in the fields the page converts. *)
Definition int (v : Value) : result Z :=
  match v with
  | Num z => Ok z
  | NaN => Raise ValueError_int_of_nan
  | Str _ => Raise (TypeError "int of str")
  | Dict _ => Raise (TypeError "int of dict")
  end.

(** [s.title()] on ASCII text: the first letter of every run of letters in
    upper case, the letters that follow it in lower case, every other
    character kept. *)
Definition is_lower (c : ascii) : bool :=
  ((97 <=? nat_of_ascii c) && (nat_of_ascii c <=? 122))%nat.

Definition is_upper (c : ascii) : bool :=
  ((65 <=? nat_of_ascii c) && (nat_of_ascii c <=? 90))%nat.

Definition upper (c : ascii) : ascii :=
  if is_lower c then ascii_of_nat (nat_of_ascii c - 32) else c.

Definition lower (c : ascii) : ascii :=
  if is_upper c then ascii_of_nat (nat_of_ascii c + 32) else c.

Fixpoint title_from (in_word : bool) (s : string) : string :=
  match s with
  | EmptyString => EmptyString
  | String c r =>
      if is_lower c || is_upper c
      then String (if in_word then lower c else upper c) (title_from true r)
      else String c (title_from false r)
  end.

Definition str_title (s : string) : string := title_from false s.

(** [str(n)] of a natural number. *)
Definition str_nat (n : nat) : string := NilZero.string_of_uint (Nat.to_uint n).

End Py.

(** ** pandas: the Series and DataFrame operations the page calls *)

Module Pandas.
Import Py.

(** A float cell: [None] is NaN. *)
Abbreviation float := (option Z) (only parsing).

Definition fillna {A : Type} (v : A) (s : list (option A)) : list (option A) :=
  map (fun x => match x with Some _ => x | None => Some v end) s.

Definition dropna {A : Type} (s : list (option A)) : list A :=
  flat_map (fun x => match x with Some v => [v] | None => [] end) s.

Definition zsum (l : list Z) : Z := fold_right Z.add 0 l.

(** [s.shift(1)]: every value moves one position down, NaN enters on top. *)
Definition shift1 (s : list float) : list float :=
  firstn (List.length s) (None :: s).

Definition fsub (a b : float) : float :=
  match a, b with
  | Some x, Some y => Some (x - y)
  | _, _ => None
  end.

(** [s.diff()] is [s - s.shift(1)]. *)
Definition diff (s : list float) : list float :=
  map (fun p => fsub (fst p) (snd p)) (combine s (shift1 s)).

(** [s.rolling(window, min_periods).mean()]: at position [i] the window is
    the last [window] positions up to and including [i]; NaN cells are not
    observations; fewer than [min_periods] observations give NaN. *)
Definition rolling_window {A : Type} (window i : nat) (s : list A) : list A :=
  skipn (i + 1 - window) (firstn (i + 1) s).

Definition mean_of (obs : list Z) : Q :=
  Qmake (zsum obs) (Pos.of_nat (List.length obs)).

Definition rolling_mean (window min_periods : nat) (s : list float)
  : list (option Q) :=
  map (fun i =>
         let obs := dropna (rolling_window window i s) in
         if ((min_periods <=? List.length obs) && (0 <? List.length obs))%nat
         then Some (mean_of obs) else None)
      (seq 0 (List.length s)).

(** *** Label-indexed Series and [pd.concat(axis=1)] *)

Definition Series (K : Type) : Type := list (K * float).

(** [pd.Series(d)] for a dict of counts: the keys in insertion order. *)
Definition Series_of_dict (d : list (string * Z)) : Series string :=
  map (fun p => (fst p, Some (snd p))) d.

(** Labels in order of first appearance. *)
Fixpoint unique (l : list string) : list string :=
  match l with
  | [] => []
  | x :: r => x :: filter (fun y => negb (String.eqb x y)) (unique r)
  end.

Definition loc (k : string) (s : Series string) : float :=
  match get k s with
  | Some v => v
  | None => None
  end.

(** A frame as its rows: the row label and one cell per column. *)
Definition Frame (K : Type) : Type := list (K * list float).

(** Outer join on the labels: a label missing from a Series gives NaN. *)
Definition concat_axis1 (ss : list (Series string)) : Frame string :=
  map (fun k => (k, map (loc k) ss)) (unique (flat_map (map fst) ss)).

Definition fillna_frame {K : Type} (v : Z) (f : Frame K) : Frame K :=
  map (fun r => (fst r, fillna v (snd r))) f.

(** [f.sum(axis=1)]: NaN cells are skipped. *)
Definition sum_axis1 {K : Type} (f : Frame K) : Series K :=
  map (fun r => (fst r, Some (zsum (dropna (snd r))))) f.

(** *** Dates as index *)

(** A timestamp of a DatetimeIndex: a calendar day, or NaT ([None]). *)
Abbreviation Timestamp := (option Date) (only parsing).

(** The spellings of a missing value that [to_datetime] recognises. *)
Definition nat_strings : list string :=
  ["NaT"; "nat"; "NAT"; "nan"; "NaN"; "NAN"].

Definition is_nat_string (val : string) : bool :=
  String.eqb val "" || existsb (String.eqb val) nat_strings.

(** One label of [pd.to_datetime(idx, format="%m/%d/%y")]: an empty string
    or a spelling of a missing value becomes NaT before the format is
    tried; any other label is matched against the format. Labels are ASCII
    text. *)
Definition parse_label (val : string) : result Timestamp :=
  if is_nat_string val then Ok None
  else rbind (strptime val) (fun d => Ok (Some d)).

(** Every label is converted, the first label that fails raises. *)
Definition to_datetime (idx : list string) : result (list Timestamp) :=
  mapM parse_label idx.

(** [s.index = idx] *)
Definition set_index {K K' : Type} (s : Series K) (idx : list K') : Series K' :=
  combine idx (map snd s).

(** The order of [sort_index]: by day, NaT last. *)
Definition timestamp_leb (a b : Timestamp) : bool :=
  match a, b with
  | Some x, Some y => toordinal x <=? toordinal y
  | _, None => true
  | None, Some _ => false
  end.

Fixpoint insert_sorted (x : Timestamp * float) (l : Series Timestamp)
  : Series Timestamp :=
  match l with
  | [] => [x]
  | y :: r =>
      if timestamp_leb (fst x) (fst y) then x :: y :: r
      else y :: insert_sorted x r
  end.

Definition sort_index (s : Series Timestamp) : Series Timestamp :=
  fold_right insert_sorted [] s.

(** The day number of a label, NaN for NaT. *)
Definition ordinal (t : Timestamp) : option Z := option_map toordinal t.

Definition same_label (a b : option Z) : bool :=
  match a, b with
  | Some x, Some y => x =? y
  | None, None => true
  | _, _ => false
  end.

Fixpoint has_duplicates (l : list (option Z)) : bool :=
  match l with
  | [] => false
  | x :: r => existsb (same_label x) r || has_duplicates r
  end.

Definition zmin (x : Z) (l : list Z) : Z := fold_right Z.min x l.
Definition zmax (x : Z) (l : list Z) : Z := fold_right Z.max x l.

Fixpoint loc_day (o : Z) (s : Series Timestamp) : float :=
  match s with
  | [] => None
  | (t, v) :: r =>
      if same_label (ordinal t) (Some o) then v else loc_day o r
  end.

(** [s.asfreq('D')]: an empty Series is returned as it is; otherwise the
    Series is reindexed on every calendar day from the smallest to the
    largest day of the index (NaT left aside; days are given by their
    ordinal). The range cannot be built when every label is NaT, an index
    with a repeated label cannot be reindexed, and a day the index lacks
    gives NaN. *)
Definition asfreq_D (s : Series Timestamp) : result (Series Z) :=
  match s with
  | [] => Ok []
  | _ :: _ =>
      let labels := map (fun p => ordinal (fst p)) s in
      match dropna labels with
      | [] => Raise ValueError_range_of_nat
      | o :: os =>
          if has_duplicates labels then Raise ValueError_duplicate_labels
          else
            let lo := zmin o os in
            let hi := zmax o os in
            Ok (map (fun k => let t := lo + Z.of_nat k in (t, loc_day t s))
                    (seq 0 (Z.to_nat (hi - lo + 1))))
      end
  end.

(** *** The summary DataFrame *)

(** [pd.DataFrame(list_of_dicts)]: the columns are the keys in order of first
    appearance; a record that lacks a key has NaN in that column. A column
    assignment puts the new value in front of the record, where [cell] finds
    it first. *)
Record DataFrame : Type := mkDataFrame {
  columns : list string;
  records : list (list (string * Value))
}.

Definition DataFrame_of_json (js : list (list (string * Value))) : DataFrame :=
  mkDataFrame (unique (flat_map (map fst) js)) js.

Definition has_column (df : DataFrame) (c : string) : bool :=
  existsb (String.eqb c) (columns df).

Definition cell (r : list (string * Value)) (c : string) : Value :=
  match get c r with
  | Some v => v
  | None => NaN
  end.

(** [df[c]] *)
Definition column (df : DataFrame) (c : string) : result (list Value) :=
  if has_column df c then Ok (map (fun r => cell r c) (records df))
  else Raise (KeyError c).

(** [df[c] = vals] *)
Definition set_column (df : DataFrame) (c : string) (vals : list Value)
  : DataFrame :=
  mkDataFrame
    (if has_column df c then columns df else columns df ++ [c])
    (map (fun p => (c, snd p) :: fst p) (combine (records df) vals)).

(** [s.sum()] of a numeric column: NaN is skipped. *)
Fixpoint series_sum (s : list Value) : result Z :=
  match s with
  | [] => Ok 0
  | NaN :: r => series_sum r
  | Num z :: r => rbind (series_sum r) (fun t => Ok (z + t))
  | _ :: _ => Raise (TypeError "sum of a non-numeric column")
  end.

Definition dropna_values (s : list Value) : list Value :=
  filter (fun v => negb (isna v)) s.

(** *** [df.to_csv(index=False)]

    The csv writer with the default dialect on a POSIX host: comma, double
    quote, records ended by a line feed, quoting of the fields that hold a
    delimiter, a quote or a line feed, quotes doubled, and a record of one
    empty field written as two quotes. *)

Definition dquote : ascii := "034"%char.
Definition comma : ascii := ","%char.
Definition newline : ascii := "010"%char.
Definition cr : ascii := "013"%char.

Definition escape (f : list ascii) : list ascii :=
  flat_map (fun c => if Ascii.eqb c dquote then [dquote; dquote] else [c]) f.

Fixpoint join_fields (fs : list (list ascii)) : list ascii :=
  match fs with
  | [] => []
  | [f] => f
  | f :: r => f ++ comma :: join_fields r
  end.

Section ToCsv.

(** Whether the writer also quotes a field that holds a carriage return:
    recent versions of the csv module do, whatever the line terminator;
    older ones quote only the characters of the line terminator. *)
Variable quote_cr : bool.

(** The text written for a cell: empty for a missing value, [str(x)]
    otherwise. Its exact form (a float column prints 200.0, a dict prints
    its repr) plays no role in what follows and is left open. *)
Variable str_cell : Value -> string.

Definition is_special (c : ascii) : bool :=
  Ascii.eqb c comma || Ascii.eqb c dquote || Ascii.eqb c newline
  || (quote_cr && Ascii.eqb c cr).

Definition quote_field (f : list ascii) : list ascii :=
  if existsb is_special f then dquote :: escape f ++ [dquote] else f.

Definition write_row (fields : list (list ascii)) : list ascii :=
  match fields with
  | [ [] ] => [dquote; dquote; newline]
  | _ => join_fields (map quote_field fields) ++ [newline]
  end.

Definition csv_header (df : DataFrame) : list (list ascii) :=
  map list_ascii_of_string (columns df).

Definition csv_rows (df : DataFrame) : list (list (list ascii)) :=
  map (fun r => map (fun c => list_ascii_of_string (str_cell (cell r c)))
                    (columns df))
      (records df).

Definition to_csv (df : DataFrame) : list ascii :=
  flat_map write_row (csv_header df :: csv_rows df).

End ToCsv.

(** *** Reading the export back *)

(** The states of the reader. *)
Inductive ReaderState : Type :=
| StartRecord | StartField | InField | InQuoted | QuoteInQuoted.

(** The reader is at the start of a field. *)
Definition at_start (st : ReaderState) : Prop :=
  st = StartRecord \/ st = StartField.

Definition end_field (fld : list ascii) (rec : list (list ascii))
  : list (list ascii) := rev fld :: rec.

(** Modelled from the spec: the CSV parser of the round trip. The repository
    writes the export and never reads it; the reader is the one the spec
    presupposes for a comma-separated text with a header row and one record
    per line: the reader of the dialect above, as a state machine over the
    characters; a record ends at a line feed outside quotes. [fld] is the current field and [rec] the fields of the
    current record, both most recent first. *)
Fixpoint read_from (st : ReaderState) (fld : list ascii)
  (rec : list (list ascii)) (input : list ascii) : list (list (list ascii)) :=
  match input with
  | [] =>
      match st with
      | StartRecord => []
      | _ => [rev (end_field fld rec)]
      end
  | c :: rest =>
      match st with
      | StartRecord =>
          if Ascii.eqb c newline then [] :: read_from StartRecord [] [] rest
          else if Ascii.eqb c dquote then read_from InQuoted [] rec rest
          else if Ascii.eqb c comma
               then read_from StartField [] (end_field [] rec) rest
          else read_from InField [c] rec rest
      | StartField =>
          if Ascii.eqb c newline
          then rev (end_field [] rec) :: read_from StartRecord [] [] rest
          else if Ascii.eqb c dquote then read_from InQuoted [] rec rest
          else if Ascii.eqb c comma
               then read_from StartField [] (end_field [] rec) rest
          else read_from InField [c] rec rest
      | InField =>
          if Ascii.eqb c newline
          then rev (end_field fld rec) :: read_from StartRecord [] [] rest
          else if Ascii.eqb c comma
               then read_from StartField [] (end_field fld rec) rest
          else read_from InField (c :: fld) rec rest
      | InQuoted =>
          if Ascii.eqb c dquote then read_from QuoteInQuoted fld rec rest
          else read_from InQuoted (c :: fld) rec rest
      | QuoteInQuoted =>
          if Ascii.eqb c dquote then read_from InQuoted (c :: fld) rec rest
          else if Ascii.eqb c newline
          then rev (end_field fld rec) :: read_from StartRecord [] [] rest
          else if Ascii.eqb c comma
               then read_from StartField [] (end_field fld rec) rest
          else read_from InField (c :: fld) rec rest
      end
  end.

(** Modelled from the spec: parsing the exported text, from its first
    character. *)
Definition read_csv (text : list ascii) : list (list (list ascii)) :=
  read_from StartRecord [] [] text.

End Pandas.

(** ** statsmodels: the additive decomposition the page asks for

    [seasonal_decompose(x, model='additive', period=7,
    extrapolate_trend='freq')] over exact rationals: the trend is the centred
    mean of seven points, its three first and last points are extrapolated
    with least-squares lines through the nearest seven trend points, the
    seasonal part is the centred mean per weekday of the detrended series. *)

Module Statsmodels.
Import Py Pandas.
Local Open Scope Q_scope.

Record DecomposeResult : Type := mkDecomposeResult {
  observed : list Q;
  seasonal : list Q;
  trend : list Q;
  resid : list Q
}.

Definition qsum (l : list Q) : Q := fold_right Qplus 0 l.

Definition qnat (n : nat) : Q := inject_Z (Z.of_nat n).

Definition qmean (l : list Q) : Q := Qred (qsum l / qnat (List.length l)).

Definition convolution_filter (x : list Q) : list (option Q) :=
  map (fun i =>
         if ((3 <=? i) && (i + 3 <? List.length x))%nat
         then Some (qmean (firstn 7 (skipn (i - 3) x))) else None)
      (seq 0 (List.length x)).

(** The least-squares line [y = k * t + c] through the points. *)
Definition lstsq_line (pts : list (Q * Q)) : Q * Q :=
  let m := qnat (List.length pts) in
  let st := qsum (map fst pts) in
  let sy := qsum (map snd pts) in
  let stt := qsum (map (fun p => fst p * fst p) pts) in
  let sty := qsum (map (fun p => fst p * snd p) pts) in
  let k := Qred ((m * sty - st * sy) / (m * stt - st * st)) in
  (k, Qred ((sy - k * st) / m)).

Fixpoint first_valid (l : list (option Q)) : nat :=
  match l with
  | Some _ :: _ => O
  | None :: r => S (first_valid r)
  | [] => O
  end.

Definition points (tr : list (option Q)) (lo hi : nat) : list (Q * Q) :=
  flat_map (fun t => match nth t tr None with
                     | Some y => [(qnat t, y)]
                     | None => []
                     end)
           (seq lo (hi - lo)).

Definition extrapolate_trend (tr : list (option Q)) (npoints : nat) : list Q :=
  let n := List.length tr in
  let front := first_valid tr in
  let back := (n - 1 - first_valid (rev tr))%nat in
  let front_last := Nat.min (front + npoints) back in
  let back_first := Nat.max front (back - npoints) in
  let lf := lstsq_line (points tr front front_last) in
  let lb := lstsq_line (points tr back_first back) in
  map (fun t =>
         if (t <? front)%nat then Qred (fst lf * qnat t + snd lf)
         else if (back <? t)%nat then Qred (fst lb * qnat t + snd lb)
         else match nth t tr None with Some y => y | None => 0 end)
      (seq 0 n).

Definition every (period i : nat) (x : list Q) : list Q :=
  map (fun j => nth j x 0)
      (filter (fun j => (j mod period =? i)%nat) (seq 0 (List.length x))).

Definition components (x : list Q) : DecomposeResult :=
  let tr := extrapolate_trend (convolution_filter x) 7 in
  let detrended := map (fun p => Qred (fst p - snd p)) (combine x tr) in
  let averages := map (fun i => qmean (every 7 i detrended)) (seq 0 7) in
  let centre := qmean averages in
  let averages := map (fun a => Qred (a - centre)) averages in
  let seas := map (fun t => nth (t mod 7) averages 0)
                  (seq 0 (List.length x)) in
  mkDecomposeResult x seas tr
    (map (fun p => Qred (fst p - snd p)) (combine detrended seas)).

Definition seasonal_decompose (xs : list float) : result DecomposeResult :=
  if existsb (fun v => match v with None => true | Some _ => false end) xs
  then Raise (LibraryError "This function does not handle missing values")
  else if (List.length xs <? 14)%nat
  then Raise (LibraryError "x must have 2 complete cycles")
  else Ok (components (map inject_Z (dropna xs))).

End Statsmodels.

(** ** The page *)

Module App.
Import Py Pandas.

(** The data of the time-series chart: its three traces over the dates. *)
Record DfTs : Type := mkDfTs {
  date : list Timestamp;
  value : list float;
  new : list float;
  ma : list (option Q)
}.

(** The figure of the time-series chart (lines 184-198): the table whose
    columns the three traces draw over the dates, the names of the traces
    and the title of the layout. The range selector and the styling are
    constants of the source and are left out. *)
Record TsFigure : Type := mkTsFigure {
  fig_data : DfTs;
  fig_names : list string;
  fig_title : string
}.

(** What the page shows, one constructor per Streamlit call. A message built
    from an exception keeps the exception next to the fixed text:
    [st_error text e] is [st.error(f"{text}: {e}")] and [st_info_exn text e]
    is [st.info(text + str(e))]. *)
Inductive Widget : Type :=
| st_error (text : string) (e : exn)
| st_info (text : string)
| st_info_exn (text : string) (e : exn)
| st_metric (label val : string)
| st_plotly_chart (fig : TsFigure)
| st_subheader (text : string)
| st_pyplot (fig : Statsmodels.DecomposeResult)
| st_download_button (label : string) (data : list ascii)
                     (file_name mime : string).

(** A run of a part of the page: the widgets shown so far are the state, an
    exception ends the run and keeps what was shown. *)
Definition M (A : Type) : Type := list Widget -> result A * list Widget.

Definition ret {A} (a : A) : M A := fun page => (Ok a, page).

Definition bind {A B} (m : M A) (k : A -> M B) : M B :=
  fun page =>
    match m page with
    | (Ok a, page') => k a page'
    | (Raise e, page') => (Raise e, page')
    end.

Definition show (w : Widget) : M unit := fun page => (Ok tt, page ++ [w]).

Definition lift {A} (r : result A) : M A := fun page => (r, page).

(** [try: body except Exception as e: handler(e)] *)
Definition try_except {A} (body : M A) (handler : exn -> M A) : M A :=
  fun page =>
    match body page with
    | (Raise e, page') => handler e page'
    | done => done
    end.

Notation "x <- m ;; k" := (bind m (fun x => k))
  (at level 61, m at next level, right associativity).
Notation "m ;; k" := (bind m (fun _ => k))
  (at level 61, right associativity).
Notation "'let!' x ':=' r 'in' k" := (rbind r (fun x => k))
  (at level 61, x name, r at next level, right associativity).

(** *** Top-level KPIs (lines 60-77) *)

(** [int(df[c].sum())] *)
Definition column_total (df : DataFrame) (c : string) : result Z :=
  let! s := column df c in series_sum s.

Definition is_country (country : string) (r : list (string * Value)) : bool :=
  match cell r "country" with
  | Str s => String.eqb s country
  | _ => false
  end.

(** [df[df['country'] == country].iloc[0]] *)
Definition select_row (df : DataFrame) (country : string)
  : result (list (string * Value)) :=
  let! _ := column df "country" in
  match filter (is_country country) (records df) with
  | [] => Raise IndexError
  | r :: _ => Ok r
  end.

(** [row[c]] *)
Definition row_item (df : DataFrame) (r : list (string * Value)) (c : string)
  : result Value :=
  if has_column df c then Ok (cell r c) else Raise (KeyError c).

Record Totals : Type := mkTotals {
  total_cases : Z;
  total_deaths : Z;
  total_recovered : Z;
  total_tests : option Z
}.

Definition totals (df : DataFrame) (country : string) : result Totals :=
  if String.eqb country "Global" then
    let! tc := column_total df "cases" in
    let! td := column_total df "deaths" in
    let! tr := column_total df "recovered" in
    let! tt := (if has_column df "tests"
                then let! s := column df "tests" in
                     let! t := series_sum (dropna_values s) in Ok (Some t)
                else Ok None) in
    Ok (mkTotals tc td tr tt)
  else
    let! row := select_row df country in
    let! tc := (let! v := row_item df row "cases" in int v) in
    let! td := (let! v := row_item df row "deaths" in int v) in
    let! tr := (let! v := row_item df row "recovered" in int v) in
    let! tt := (if has_column df "tests" && negb (isna (cell row "tests"))
                then let! t := int (cell row "tests") in Ok (Some t)
                else Ok None) in
    Ok (mkTotals tc td tr tt).

Definition kpi_section (df : DataFrame) (country : string) : M unit :=
  t <- lift (totals df country) ;;
  show (st_metric "Total Cases" (format_comma (total_cases t))) ;;
  show (st_metric "Total Deaths" (format_comma (total_deaths t))) ;;
  show (st_metric "Total Recovered" (format_comma (total_recovered t))) ;;
  show (st_metric "Total Tests"
          (match total_tests t with
           | Some n => format_comma n
           | None => "N/A"
           end)).

(** *** The iso2 column (lines 113-117) and the export (lines 221-222) *)

Definition iso2_of (v : Value) : Value :=
  match v with
  | Dict kv => match get "iso2" kv with Some x => x | None => NaN end
  | _ => NaN
  end.

Definition set_iso2 (df : DataFrame) : result DataFrame :=
  if has_column df "countryInfo" then
    match records df with
    | [] => Raise (KeyError "0")
    | r0 :: _ =>
        match cell r0 "countryInfo" with
        | Dict _ =>
            Ok (set_column df "iso2"
                  (map (fun r => iso2_of (cell r "countryInfo")) (records df)))
        | _ => Ok (set_column df "iso2" (map (fun _ => NaN) (records df)))
        end
    end
  else Ok (set_column df "iso2" (map (fun _ => NaN) (records df))).

Definition download_section (quote_cr : bool) (str_cell : Value -> string)
  (df : DataFrame) : M unit :=
  let csv := to_csv quote_cr str_cell df in
  show (st_download_button "Download summary CSV" csv
          "covid_summary.csv" "text/csv").

(** *** Historical data (lines 133-174) *)

(** One object of the historical endpoint: the timeline maps a metric to the
    cumulative count per date key. *)
Record Hist : Type := mkHist {
  hist_country : option string;
  hist_timeline : option (list (string * list (string * Z)))
}.

Definition get_or_empty {V : Type} (k : string)
  (d : list (string * list V)) : list V :=
  match get k d with
  | Some v => v
  | None => []
  end.

(** The loop over [hist_json] (lines 141-150). *)
Definition df_hist_list (metric_option : string) (hist_json : list Hist)
  : list (Series string) :=
  flat_map (fun c =>
              match hist_timeline c with
              | None | Some [] => []
              | Some timeline =>
                  match get_or_empty metric_option timeline with
                  | [] => []
                  | metric_series => [Series_of_dict metric_series]
                  end
              end)
           hist_json.

(** Lines 155-156: the per-date sum over the countries. *)
Definition global_sum (l : list (Series string)) : Series string :=
  sum_axis1 (fillna_frame 0 (concat_axis1 l)).

(** Lines 157-158 and 170-171. *)
Definition index_by_date (ts : Series string) : result (Series Timestamp) :=
  let! idx := to_datetime (map fst ts) in
  Ok (sort_index (set_index ts idx)).

Definition global_ts (metric_option : string)
  (fetched : result (list Hist)) : M (Series Timestamp) :=
  try_except
    (hist_json <- lift fetched ;;
     match df_hist_list metric_option hist_json with
     | [] => show (st_info "No historical data available to show.") ;;
             ret []
     | l => lift (index_by_date (global_sum l))
     end)
    (fun e => show (st_error "Failed to load global historical data" e) ;;
              ret []).

Definition country_ts (country metric_option : string)
  (fetched : result Hist) : M (Series Timestamp) :=
  try_except
    (hist <- lift fetched ;;
     let timeline := match hist_timeline hist with
                     | Some t => t
                     | None => []
                     end in
     let metric_series := get_or_empty metric_option timeline in
     lift (index_by_date (Series_of_dict metric_series)))
    (fun e => show (st_error ("Failed to load historical data for " ++ country) e) ;;
              ret []).

(** *** Derived columns (lines 179-181) *)

Definition df_ts (ts : Series Timestamp) (ma_window : nat) : DfTs :=
  let value := map snd ts in
  let new := fillna 0 (diff value) in
  mkDfTs (map fst ts) value new (rolling_mean ma_window 1 new).

(** *** Decomposition (lines 202-216) *)

Section Decomposition.

(** The call [seasonal_decompose(series, model='additive', period=7,
    extrapolate_trend='freq')] of statsmodels: it returns the four
    components or raises. *)
Variable seasonal_decompose :
  Series Z -> result Statsmodels.DecomposeResult.

(** Line 204. *)
Definition series_for_decomp (d : DfTs) : result (Series Z) :=
  let! s := asfreq_D (combine (date d) (new d)) in
  Ok (combine (map fst s) (fillna 0 (map snd s))).

Definition decomposition (d : DfTs) : M unit :=
  if (30 <=? List.length (date d))%nat then
    try_except
      (s <- lift (series_for_decomp d) ;;
       result <- lift (seasonal_decompose s) ;;
       show (st_subheader "Time series decomposition (daily new cases)") ;;
       show (st_pyplot result))
      (fun e => show (st_info_exn "Decomposition not available: " e))
  else ret tt.

(** Lines 184-198. *)
Definition fig_ts (country metric_option : string) (ma_window : nat)
  (d : DfTs) : TsFigure :=
  mkTsFigure d
    [("Cumulative " ++ str_title metric_option)%string;
     ("Daily new " ++ metric_option)%string;
     (str_nat ma_window ++ "-day MA (new)")%string]
    (str_title metric_option ++ " over time (" ++ country ++ ")")%string.

(** Lines 176-216. *)
Definition charts (country metric_option : string)
  (ts : Series Timestamp) (ma_window : nat) : M unit :=
  match ts with
  | [] => show (st_info "No time series data available for the selected options.")
  | _ =>
      let d := df_ts ts ma_window in
      show (st_plotly_chart (fig_ts country metric_option ma_window d)) ;;
      decomposition d
  end.

(** Lines 133-216 for one choice of the sidebar; each fetch is given by its
    outcome. *)
Definition time_series_section (country metric_option : string)
  (ma_window : nat) (global : result (list Hist)) (one : result Hist)
  : M unit :=
  ts <- (if String.eqb country "Global"
         then global_ts metric_option global
         else country_ts country metric_option one) ;;
  charts country metric_option ts ma_window.

End Decomposition.

End App.

(** ** Vocabulary of the specification *)

Module Spec.
Import Py Pandas App.

(** A series of counts as the page holds it: every cell is a number. *)
Definition of_counts {K : Type} (ts : list (K * Z)) : Series K :=
  map (fun p => (fst p, Some (snd p))) ts.

(** [l[lo..hi]], both ends included. *)
Definition slice {A : Type} (l : list A) (lo hi : nat) : list A :=
  firstn (hi + 1 - lo) (skipn lo l).

(** Sum of float cells: NaN if any cell is NaN. *)
Fixpoint fsum (l : list float) : float :=
  match l with
  | [] => Some 0
  | x :: r =>
      match x, fsum r with
      | Some a, Some b => Some (a + b)
      | _, _ => None
      end
  end.

(** The arithmetic mean of float cells: the sum over the number of cells,
    NaN for no cell. *)
Definition arithmetic_mean (l : list float) : option Q :=
  match fsum l with
  | Some s =>
      if (0 <? List.length l)%nat
      then Some (Qmake s (Pos.of_nat (List.length l))) else None
  | None => None
  end.

(** The series of one country for a metric; empty when the timeline or the
    metric is absent. *)
Definition metric_series (metric : string) (c : Hist) : list (string * Z) :=
  get_or_empty metric
    (match hist_timeline c with Some t => t | None => [] end).

(** The count a country reports for a date key, 0 when it has none. *)
Definition count_on (metric key : string) (c : Hist) : Z :=
  match get key (metric_series metric c) with
  | Some z => z
  | None => 0
  end.

(** What one Series adds to the row of a key in the joined frame, after the
    zero fill. *)
Definition filled (k : string) (s : Series string) : Z :=
  match loc k s with Some v => v | None => 0 end.

(** The two countries of the aggregation example. *)
Definition two_countries : list Hist :=
  [ mkHist (Some "A") (Some [("cases", [("1/1/21", 10)])]);
    mkHist (Some "B") (Some [("cases", [("1/1/21", 5); ("1/2/21", 8)])]) ].



(** A timeline with one key in ISO form. *)
Definition hist_iso : Hist :=
  mkHist (Some "Italy")
         (Some [("cases", [("3/5/21", 10); ("2021-03-05", 20)])]).


(** Ascending order of the dates, NaT last. *)
Definition in_order (a b : Timestamp * float) : Prop :=
  timestamp_leb (fst a) (fst b) = true.

(** The requested metric is absent from the raw timeline, or empty. *)
Definition no_data (metric : string) (c : Hist) : Prop :=
  match hist_timeline c with
  | None => True
  | Some t => get metric t = None \/ get metric t = Some []
  end.

(** The number of calendar days from the first to the last day of the
    index. *)
Definition span_days (dates : list Timestamp) : nat :=
  match dropna (map ordinal dates) with
  | [] => O
  | o :: os => Z.to_nat (zmax o os - zmin o os + 1)
  end.

(** Each day is the day after the one before it. *)
Fixpoint consecutive (o : Z) (l : list Z) : Prop :=
  match l with
  | [] => True
  | x :: r => x = o + 1 /\ consecutive x r
  end.

(** The index holds consecutive days and no NaT. *)
Definition consecutive_days (dates : list Timestamp) : Prop :=
  exists ds, dates = map Some ds
             /\ match map toordinal ds with
                | [] => True
                | o :: os => consecutive o os
                end.

(** The page's call of the decomposition, bound to the model of the
    library. *)
Definition statsmodels_call (s : Series Z)
  : result Statsmodels.DecomposeResult :=
  Statsmodels.seasonal_decompose (map snd s).

(** Thirty points in January 2021 with no point on the 30th: the counts of
    the 1st to the 29th and of the 31st. *)
Definition gap_series : Series Timestamp :=
  map (fun k => (Some (mkDate 2021 1 (Z.of_nat k)),
                 Some (Z.of_nat (k * k + 3 * k))))
      (seq 1 29)
  ++ [(Some (mkDate 2021 1 31), Some 1100)].

(** Thirty consecutive days. *)
Definition daily_series : Series Timestamp :=
  map (fun k => (Some (mkDate 2021 1 (Z.of_nat k)),
                 Some (Z.of_nat (k * k + 3 * k))))
      (seq 1 30).

(** Thirty points in which the first date comes twice. *)
Definition repeated_series : Series Timestamp :=
  (Some (mkDate 2021 1 1), Some 0) :: firstn 29 daily_series.

(** The components shown for [daily_series]. *)
Definition daily_result : Statsmodels.DecomposeResult :=
  match snd (decomposition statsmodels_call (df_ts daily_series 7) []) with
  | [_; st_pyplot r] => r
  | _ => Statsmodels.mkDecomposeResult [] [] [] []
  end.

(** The summary table of the end-to-end scenario. *)
Definition table_X : DataFrame :=
  DataFrame_of_json
    [[("country", Str "X"); ("cases", Num 100); ("deaths", Num 5);
      ("recovered", Num 80); ("tests", Num 200)]].

(** A table with larger counts; the second country reports no tests. *)
Definition table_large : DataFrame :=
  DataFrame_of_json
    [[("country", Str "X"); ("cases", Num 1234); ("deaths", Num 1000);
      ("recovered", Num 999); ("tests", Num 1234567)];
     [("country", Str "Y"); ("cases", Num 12345678); ("deaths", Num 0);
      ("recovered", Num 123456)]].

(** A table in which no country reports tests. *)
Definition table_no_tests : DataFrame :=
  DataFrame_of_json
    [[("country", Str "X"); ("cases", Num 100); ("deaths", Num 5);
      ("recovered", Num 80)]].

(** The sum of the tests over the rows whose tests value is present. *)
Definition present_tests_sum (df : DataFrame) : Z :=
  zsum (flat_map (fun r => match cell r "tests" with
                           | Num z => [z]
                           | _ => []
                           end)
                 (records df)).

(** A rendering of cells for the examples: nothing for a missing value, the
    decimal numeral, the string itself, a fixed text for a dict. *)
Definition str_cell_example (v : Value) : string :=
  match v with
  | NaN => ""
  | Num z => NilZero.string_of_int (Z.to_int z)
  | Str s => s
  | Dict _ => "{...}"
  end.

(** A fetched table whose cells hold a comma, a quote and a line break. *)
Definition table_fetched : DataFrame :=
  DataFrame_of_json
    [[("country", Str "Korea, South"); ("cases", Num 100);
      ("countryInfo", Dict [("_id", Num 410); ("iso2", Str "KR")])];
     [("country", Str (String "034" (String.append "Alba" (String "034" " Isle"))));
      ("cases", Num 7); ("tests", Num 12);
      ("countryInfo", Dict [("_id", NaN)])];
     [("country", Str (String.append "Two" (String "010" "Lines")));
      ("countryInfo", NaN)]].

(** The table at the time of the export. *)
Definition table_exported : DataFrame :=
  match set_iso2 table_fetched with
  | Ok df => df
  | Raise _ => table_fetched
  end.

End Spec.

(** ** The whole page: sidebar, sections in order, export *)

Module Page.
Import Py Pandas App.

(** *** The country selector (lines 50-51) *)

Fixpoint insert_name (x : string) (l : list string) : list string :=
  match l with
  | [] => [x]
  | y :: r => if String.leb x y then x :: y :: r else y :: insert_name x r
  end.

(** [sorted(names)] for strings: ascending by code point. *)
Definition sorted_names (l : list string) : list string :=
  fold_right insert_name [] l.

(** The values of the country column as strings. The API sends the country
    as a string; a dict cannot be hashed by [unique] and a number cannot be
    compared with a string by [sorted], both raise TypeError. A column that
    holds numbers only is outside the model. *)
Fixpoint names (vals : list Value) : result (list string) :=
  match vals with
  | [] => Ok []
  | Str s :: r => rbind (names r) (fun l => Ok (s :: l))
  | _ :: _ => Raise (TypeError "country is not a string")
  end.

(** [sorted(df['country'].dropna().unique())] *)
Definition country_list (df : DataFrame) : result (list string) :=
  rbind (column df "country") (fun c =>
  rbind (names (dropna_values c)) (fun l =>
  Ok (sorted_names (unique l)))).

(** The options of the selector: ["Global"] + country_list. *)
Definition country_options (l : list string) : list string := "Global" :: l.

(** *** The table of the correlation matrix (lines 83-84) *)

Definition numeric_cols : list string :=
  ["cases"; "deaths"; "recovered"; "active"; "population"].

(** [df[cols]]: the rows restricted to the columns, KeyError when a column
    is missing. *)
Definition select_columns (df : DataFrame) (cols : list string)
  : result (list (list Value)) :=
  match find (fun c => negb (has_column df c)) cols with
  | Some c => Raise (KeyError c)
  | None => Ok (map (fun r => map (cell r) cols) (records df))
  end.

Definition fillna_cells (v : Value) (rows : list (list Value))
  : list (list Value) :=
  map (map (fun x => if isna x then v else x)) rows.

Definition corr_df (df : DataFrame) : result (list (list Value)) :=
  rbind (select_columns df numeric_cols) (fun rows =>
  Ok (fillna_cells (Num 0) rows)).

(** *** The run of the page *)

Inductive TextKind : Type :=
| sidebar_title | sidebar_markdown | title | markdown | header | write
| caption.

Section Run.

(** A figure of plotly, and the three calls that build one; each is a call
    into the charting library and may raise. [imshow_corr] stands for
    [corr_df.corr()] followed by [px.imshow], whose coefficients are
    floats. *)
Variable Figure : Type.
Variable imshow_corr : list (list Value) -> result Figure.
Variable px_scatter : DataFrame -> option string -> result Figure.
Variable px_choropleth : DataFrame -> result Figure.

(** The decomposition routine and the two open points of the export. *)
Variable seasonal_decompose : Series Z -> result Statsmodels.DecomposeResult.
Variable quote_cr : bool.
Variable str_cell : Value -> string.

(** What one run shows, in order. *)
Inductive Item : Type :=
| shown (w : Widget)
| text (kind : TextKind) (body : string)
| selectbox (label : string) (options : list string)
| slider (label : string) (lo hi default : nat)
| plotly_chart (fig : Figure).

(** How a run ends: at the last line, at [st.stop()], or at an exception
    that nothing catches. *)
Inductive Outcome (A : Type) : Type :=
| Finished (a : A)
| Stopped
| Crashed (e : exn).
Arguments Finished {A} a.
Arguments Stopped {A}.
Arguments Crashed {A} e.

Definition P (A : Type) : Type := list Item -> Outcome A * list Item.

Definition pret {A} (a : A) : P A := fun items => (Finished a, items).

Definition pbind {A B} (m : P A) (k : A -> P B) : P B :=
  fun items =>
    match m items with
    | (Finished a, items') => k a items'
    | (Stopped, items') => (Stopped, items')
    | (Crashed e, items') => (Crashed e, items')
    end.

Definition put (i : Item) : P unit := fun items => (Finished tt, items ++ [i]).

Definition st_stop {A} : P A := fun items => (Stopped, items).

(** A computation that may raise, outside any try. *)
Definition plift {A} (r : result A) : P A :=
  fun items =>
    match r with
    | Ok a => (Finished a, items)
    | Raise e => (Crashed e, items)
    end.

(** A section of the page with the widgets it shows. *)
Definition embed {A} (m : M A) : P A :=
  fun items =>
    match m [] with
    | (Ok a, ws) => (Finished a, items ++ map shown ws)
    | (Raise e, ws) => (Crashed e, items ++ map shown ws)
    end.

Notation "'run' x ':=' m 'in' k" := (pbind m (fun x => k))
  (at level 61, x name, m at next level, right associativity).
Notation "m ';;;' k" := (pbind m (fun _ => k))
  (at level 61, right associativity).

(** Lines 39-44. *)
Definition load_summary (fetched : result (list (list (string * Value))))
  : P DataFrame :=
  match fetched with
  | Ok js => pret (DataFrame_of_json js)
  | Raise e => put (shown (st_error "Failed to load summary data" e)) ;;; st_stop
  end.

(** Lines 46-54; what the user picks is given. *)
Definition sidebar (df : DataFrame) : P unit :=
  put (text sidebar_title "COVID-19 Dashboard") ;;;
  put (text sidebar_markdown
         "Select options to filter the data and update visualizations.") ;;;
  run l := plift (country_list df) in
  put (selectbox "Select country" (country_options l)) ;;;
  put (selectbox "Metric for time series"
         ["cases"; "deaths"; "recovered"; "tests"]) ;;;
  put (slider "Moving average window (days)" 1 30 7).

(** Lines 82-92. *)
Definition correlation_section (df : DataFrame) : P unit :=
  put (text header "Cross-country statistics & correlation") ;;;
  run t := plift (corr_df df) in
  run fig := plift (imshow_corr t) in
  put (plotly_chart fig).

(** Lines 97-107. *)
Definition scatter_section (df : DataFrame) : P unit :=
  put (text header "Cases vs Deaths (by country)") ;;;
  run fig := plift (px_scatter df (if has_column df "continent"
                                   then Some "continent" else None)) in
  put (plotly_chart fig).

(** Lines 112-125: the table leaves this section with its iso2 column. *)
Definition map_section (df : DataFrame) : P DataFrame :=
  put (text header "Global map: Cases by country") ;;;
  run df' := plift (set_iso2 df) in
  run fig := plift (px_choropleth df') in
  put (plotly_chart fig) ;;;
  pret df'.

(** Lines 218-224. *)
Definition download_and_notes (df : DataFrame) : P unit :=
  put (text markdown "---") ;;;
  put (text header "Download & Notes") ;;;
  put (text write
         "You can download the country-level summary CSV used in this dashboard.") ;;;
  embed (download_section quote_cr str_cell df) ;;;
  put (text caption
         "Notes: This dashboard uses the disease.sh API for demonstration. For academic or production work, cross-check data with official repositories (Johns Hopkins CSSE, Our World in Data).").

(** Lines 57-127: from the title to the map. *)
Definition upper_page (df : DataFrame) (country : string) : P DataFrame :=
  put (text title "COVID-19 Interactive Dashboard") ;;;
  put (text markdown
         "Data source: disease.sh (aggregated Johns Hopkins / other public sources) — used for demonstration and assignment EDA.") ;;;
  embed (kpi_section df country) ;;;
  put (text markdown "---") ;;;
  correlation_section df ;;;
  put (text markdown "---") ;;;
  scatter_section df ;;;
  put (text markdown "---") ;;;
  run df' := map_section df in
  put (text markdown "---") ;;;
  pret df'.

(** One run of the script: the outcome of the three fetches and the picks
    of the user are given. *)
Definition page (summary : result (list (list (string * Value))))
  (country metric_option : string) (ma_window : nat)
  (global : result (list Hist)) (one : result Hist) : P unit :=
  run df := load_summary summary in
  sidebar df ;;;
  run df' := upper_page df country in
  put (text header ("Time series: " ++ country)) ;;;
  embed (time_series_section seasonal_decompose country metric_option
           ma_window global one) ;;;
  download_and_notes df'.

End Run.

Arguments Finished {A} a.
Arguments Stopped {A}.
Arguments Crashed {A} e.
Arguments shown {Figure} w.
Arguments text {Figure} kind body.
Arguments selectbox {Figure} label options.
Arguments slider {Figure} label lo hi default.
Arguments plotly_chart {Figure} fig.

End Page.

(** ** Further vocabulary *)

Module Notions.
Import Py Pandas App Spec Page.

(** The day-to-day differences of a list of counts, each against the count
    before it. *)
Fixpoint deltas_from (prev : Z) (l : list Z) : list Z :=
  match l with
  | [] => []
  | x :: r => (x - prev) :: deltas_from x r
  end.

(** The daily deltas of a list of counts: 0 for the first day. *)
Definition deltas (l : list Z) : list Z :=
  match l with
  | [] => []
  | x :: r => 0 :: deltas_from x r
  end.

(** No count is smaller than the count before it. *)
Fixpoint nondecreasing_from (prev : Z) (l : list Z) : Prop :=
  match l with
  | [] => True
  | x :: r => prev <= x /\ nondecreasing_from x r
  end.

Definition nondecreasing (l : list Z) : Prop :=
  match l with
  | [] => True
  | x :: r => nondecreasing_from x r
  end.

(** A float cell that holds a number, at least [a], at most [b]. *)
Definition is_number (c : float) : Prop := exists z, c = Some z.
Definition at_least (a : Z) (c : float) : Prop :=
  exists z, c = Some z /\ a <= z.
Definition at_most (b : Z) (c : float) : Prop :=
  exists z, c = Some z /\ z <= b.

(** A mean that is a number, at least [a], at most [b]. *)
Definition mean_at_least (a : Z) (c : option Q) : Prop :=
  exists q, c = Some q /\ (inject_Z a <= q)%Q.
Definition mean_at_most (b : Z) (c : option Q) : Prop :=
  exists q, c = Some q /\ (q <= inject_Z b)%Q.

(** Ascending order of names. *)
Definition name_le (a b : string) : Prop := String.leb a b = true.

(** The row of four KPIs for given totals. *)
Definition kpi_row (t : Totals) : list Widget :=
  [st_metric "Total Cases" (format_comma (total_cases t));
   st_metric "Total Deaths" (format_comma (total_deaths t));
   st_metric "Total Recovered" (format_comma (total_recovered t));
   st_metric "Total Tests"
     (match total_tests t with
      | Some n => format_comma n
      | None => "N/A"
      end)].

(** The country cell of a row. *)
Definition country_of (r : list (string * Value)) : Value := cell r "country".

(** A total of one country as its KPI shows it, 0 when the KPIs fail. *)
Definition country_total (f : Totals -> Z) (df : DataFrame) (c : string) : Z :=
  match totals df c with
  | Ok t => f t
  | Raise _ => 0
  end.

(** The cell that line 113 inspects, [df.loc[0, 'countryInfo']], is a
    dict. *)
Definition first_info_is_dict (df : DataFrame) : bool :=
  match records df with
  | r0 :: _ => match cell r0 "countryInfo" with Dict _ => true | _ => false end
  | [] => false
  end.

(** A summary of two countries; the second one reports no cases. *)
Definition summary_json : list (list (string * Value)) :=
  [[("country", Str "X"); ("cases", Num 100); ("deaths", Num 5);
    ("recovered", Num 80); ("active", Num 15); ("population", Num 1000);
    ("tests", Num 200); ("countryInfo", Dict [("iso2", Str "XX")])];
   [("country", Str "Y"); ("deaths", Num 1); ("recovered", Num 2);
    ("active", Num 3); ("population", Num 500);
    ("countryInfo", Dict [("iso2", Str "YY")])]].

(** The download button and the items around it (lines 218-224) for a given
    export. *)
Definition export_items {Figure : Type} (csv : list ascii)
  : list (Item Figure) :=
  [text markdown "---";
   text header "Download & Notes";
   text write
     "You can download the country-level summary CSV used in this dashboard.";
   shown (st_download_button "Download summary CSV" csv
            "covid_summary.csv" "text/csv");
   text caption
     "Notes: This dashboard uses the disease.sh API for demonstration. For academic or production work, cross-check data with official repositories (Johns Hopkins CSSE, Our World in Data)."].

(** An item that offers the download. *)
Definition is_download {Figure : Type} (i : Item Figure) : bool :=
  match i with
  | shown (st_download_button _ _ _ _) => true
  | _ => false
  end.

(** A widget with the title of its chart set aside. *)
Definition without_title (w : Widget) : Widget :=
  match w with
  | st_plotly_chart fig =>
      st_plotly_chart (mkTsFigure (fig_data fig) (fig_names fig) "")
  | _ => w
  end.

End Notions.

(** * Properties *)

Import Py Pandas App Spec Page Notions.

(** ** Lists *)

Lemma nth_error_combine {A B : Type} (l1 : list A) (l2 : list B) (i : nat) :
  nth_error (combine l1 l2) i =
  match nth_error l1 i, nth_error l2 i with
  | Some a, Some b => Some (a, b)
  | _, _ => None
  end.
Proof.
  revert l2 i; induction l1 as [|a l1 IH]; intros [|b l2] [|i]; simpl;
    try reflexivity; try apply IH.
  destruct (nth_error l1 i); reflexivity.
Qed.

Lemma map_seq_nth_error {A B : Type} (f : A -> B) (g : nat -> B) (l : list A) :
  (forall i x, nth_error l i = Some x -> g i = f x) ->
  map g (seq 0 (List.length l)) = map f l.
Proof.
  intros H.
  assert (G : forall k, (forall i x, nth_error l i = Some x -> g (k + i)%nat = f x) ->
                        map g (seq k (List.length l)) = map f l).
  { clear H. induction l as [|x l IH]; intros k H; simpl; [reflexivity|].
    f_equal.
    - rewrite <- (H 0%nat x eq_refl). f_equal. lia.
    - apply IH. intros i y Hi. rewrite <- (H (S i) y Hi). f_equal. lia. }
  apply G. exact H.
Qed.

(** ** C1: the daily delta *)

Lemma dropna_map_Some {A : Type} (l : list A) : dropna (map Some l) = l.
Proof. induction l; simpl; [reflexivity | f_equal; assumption]. Qed.

Lemma fillna_no_nan (v : Z) (s : list float) :
  fillna v s = map Some (map (fun x => match x with Some z => z | None => v end) s).
Proof.
  unfold fillna. rewrite map_map. apply map_ext. intros [z|]; reflexivity.
Qed.

Lemma shift1_nth (s : list float) (i : nat) :
  nth_error (shift1 s) (S i) =
  if (S i <? List.length s)%nat then nth_error s i else None.
Proof. unfold shift1. rewrite nth_error_firstn. reflexivity. Qed.

Lemma diff_length (s : list float) : List.length (diff s) = List.length s.
Proof.
  unfold diff, shift1. rewrite length_map, length_combine, length_firstn.
  cbn [List.length]. lia.
Qed.

Lemma diff_first (x : float) (s : list float) :
  nth_error (diff (x :: s)) 0 = Some None.
Proof. unfold diff. simpl. destruct x; reflexivity. Qed.

Lemma diff_next (s : list float) (i : nat) (a b : float) :
  nth_error s i = Some a -> nth_error s (S i) = Some b ->
  nth_error (diff s) (S i) = Some (fsub b a).
Proof.
  intros Ha Hb. unfold diff.
  rewrite nth_error_map, nth_error_combine, Hb, shift1_nth, Ha.
  assert (S i < List.length s)%nat as Hlt
    by (apply nth_error_Some; rewrite Hb; discriminate).
  apply Nat.ltb_lt in Hlt. rewrite Hlt. reflexivity.
Qed.

Lemma of_counts_values {K : Type} (ts : list (K * Z)) :
  map snd (of_counts ts) = map Some (map snd ts).
Proof. unfold of_counts. rewrite !map_map. reflexivity. Qed.

(** C1. For a cumulative series s with at least one point and any window,
    the column [new] holds 0 at position 0 and s[i] - s[i-1] at every later
    position i. *)
Theorem C1_daily_delta (ts : list (Timestamp * Z)) (w i : nat) :
  let s := map snd ts in
  let d := df_ts (of_counts ts) w in
  (1 <= List.length s)%nat ->
  nth_error (new d) 0 = Some (Some 0) /\
  ((0 < i < List.length s)%nat ->
   nth_error (new d) i = Some (Some (nth i s 0 - nth (i - 1) s 0))).
Proof.
  intros s d Hn. unfold d, df_ts; cbn [new]. rewrite of_counts_values. fold s.
  unfold fillna. split.
  - destruct s as [|x s']; [simpl in Hn; lia|].
    rewrite nth_error_map. simpl map. rewrite diff_first. reflexivity.
  - intros [Hi Hlt]. destruct i as [|j]; [lia|].
    rewrite nth_error_map.
    rewrite (diff_next (map Some s) j (Some (nth j s 0)) (Some (nth (S j) s 0))).
    + simpl. replace (j - 0)%nat with j by lia. reflexivity.
    + rewrite nth_error_map, (nth_error_nth' s 0) by lia. reflexivity.
    + rewrite nth_error_map, (nth_error_nth' s 0) by lia. reflexivity.
Qed.

Lemma C1_daily_delta_witness :
  let ts := [(Some (mkDate 2021 1 1), 10); (Some (mkDate 2021 1 2), 25);
             (Some (mkDate 2021 1 3), 27)] in
  nth_error (new (df_ts (of_counts ts) 7)) 0 = Some (Some 0) /\
  nth_error (new (df_ts (of_counts ts) 7)) 2 = Some (Some 2).
Proof.
  intros ts.
  destruct (C1_daily_delta ts 7 2) as [H0 H2]; [simpl; lia|].
  split; [exact H0 | apply H2; simpl; lia].
Defined.

(** ** C2: the moving average *)

Lemma fsum_map_Some (l : list Z) : fsum (map Some l) = Some (zsum l).
Proof. induction l as [|x l IH]; simpl; [reflexivity | rewrite IH; reflexivity]. Qed.

Lemma arithmetic_mean_numbers (l : list Z) :
  l <> [] -> arithmetic_mean (map Some l) = Some (mean_of l).
Proof.
  intros Hl. unfold arithmetic_mean, mean_of.
  rewrite fsum_map_Some, length_map.
  destruct l; [contradiction | reflexivity].
Qed.

Lemma rolling_window_slice {A : Type} (w i : nat) (s : list A) :
  rolling_window w i s = slice s (i + 1 - w) i.
Proof. unfold rolling_window, slice. apply skipn_firstn_comm. Qed.

Lemma slice_map {A B : Type} (f : A -> B) (l : list A) (lo hi : nat) :
  slice (map f l) lo hi = map f (slice l lo hi).
Proof. unfold slice. rewrite skipn_map, firstn_map. reflexivity. Qed.

Lemma slice_length {A : Type} (l : list A) (lo hi : nat) :
  (lo <= hi < List.length l)%nat ->
  List.length (slice l lo hi) = (hi + 1 - lo)%nat.
Proof. intros H. unfold slice. rewrite length_firstn, length_skipn. lia. Qed.

Lemma slice_single {A : Type} (l : list A) (i : nat) (x : A) :
  nth_error l i = Some x -> slice l i i = [x].
Proof.
  revert i; induction l as [|y l IH]; intros [|i] H; simpl in H; try discriminate.
  - injection H as ->. reflexivity.
  - unfold slice in *. simpl skipn. replace (S i + 1 - S i)%nat with (i + 1 - i)%nat by lia.
    apply IH, H.
Qed.

(** The rolling mean of a column without NaN, position by position. *)
Lemma rolling_mean_numbers (w : nat) (l : list Z) (i : nat) :
  (1 <= w)%nat -> (i < List.length l)%nat ->
  nth_error (rolling_mean w 1 (map Some l)) i =
  Some (Some (mean_of (slice l (i + 1 - w) i))).
Proof.
  intros Hw Hi. unfold rolling_mean.
  rewrite nth_error_map, nth_error_seq, length_map.
  apply Nat.ltb_lt in Hi as Hb. rewrite Hb. cbn [option_map Nat.add].
  rewrite rolling_window_slice, slice_map, dropna_map_Some.
  rewrite slice_length by lia.
  replace (1 <=? i + 1 - (i + 1 - w))%nat with true
    by (symmetry; apply Nat.leb_le; lia).
  replace (0 <? i + 1 - (i + 1 - w))%nat with true
    by (symmetry; apply Nat.ltb_lt; lia).
  reflexivity.
Qed.

Lemma mean_of_single (z : Z) : mean_of [z] = inject_Z z.
Proof. unfold mean_of, inject_Z. simpl. rewrite Z.add_0_r. reflexivity. Qed.

Lemma rolling_mean_window_1 (l : list Z) :
  rolling_mean 1 1 (map Some l) = map (option_map inject_Z) (map Some l).
Proof.
  unfold rolling_mean. apply map_seq_nth_error.
  intros i x Hx. rewrite nth_error_map in Hx.
  destruct (nth_error l i) as [z|] eqn:Hz; [|discriminate].
  injection Hx as <-.
  rewrite rolling_window_slice.
  replace (i + 1 - 1)%nat with i by lia.
  rewrite (slice_single (map Some l) i (Some z))
    by (rewrite nth_error_map, Hz; reflexivity).
  cbn [dropna flat_map app List.length Nat.leb Nat.ltb andb option_map].
  rewrite mean_of_single. reflexivity.
Qed.

(** C2. For a window w between 1 and 30, the column [ma] holds at every
    position i the arithmetic mean of [new] over the positions
    max(0, i-w+1) .. i; that mean is a number (no NaN, also at the start);
    for w = 1 the column [ma] is the column [new]. *)
Theorem C2_moving_average (ts : Series Timestamp) (w i : nat) :
  let d := df_ts ts w in
  let lo := Z.to_nat (Z.max 0 (Z.of_nat i - Z.of_nat w + 1)) in
  (1 <= w <= 30)%nat -> (i < List.length ts)%nat ->
  nth_error (ma d) i = Some (arithmetic_mean (slice (new d) lo i))
  /\ (exists q, arithmetic_mean (slice (new d) lo i) = Some q)
  /\ (w = 1%nat -> ma d = map (option_map inject_Z) (new d)).
Proof.
  intros d lo Hw Hi. unfold d, df_ts; cbn [ma new].
  rewrite fillna_no_nan.
  set (l := map (fun x : float => match x with Some z => z | None => 0 end)
                (diff (map snd ts))).
  assert (Hl : List.length l = List.length ts)
    by (unfold l; rewrite length_map, diff_length, length_map; reflexivity).
  assert (Hlo : lo = (i + 1 - w)%nat) by (unfold lo; lia).
  assert (Hne : slice l lo i <> []).
  { intros E. apply (f_equal (@List.length Z)) in E.
    rewrite slice_length in E by lia. simpl in E. lia. }
  rewrite slice_map, arithmetic_mean_numbers by exact Hne.
  split; [|split].
  - rewrite Hlo. apply rolling_mean_numbers; lia.
  - eexists; reflexivity.
  - intros ->. apply rolling_mean_window_1.
Qed.

Lemma C2_moving_average_witness :
  let ts := of_counts [(Some (mkDate 2021 1 1), 10); (Some (mkDate 2021 1 2), 25);
                       (Some (mkDate 2021 1 3), 27); (Some (mkDate 2021 1 4), 40)] in
  nth_error (ma (df_ts ts 2)) 3 = Some (Some (Qmake 15 2)) /\
  ma (df_ts ts 1) = [Some (inject_Z 0); Some (inject_Z 15);
                     Some (inject_Z 2); Some (inject_Z 13)].
Proof.
  intros ts. split.
  - destruct (C2_moving_average ts 2 3) as [H _]; [lia | simpl; lia |].
    exact H.
  - destruct (C2_moving_average ts 1 0) as (_ & _ & H); [lia | simpl; lia |].
    exact (H eq_refl).
Defined.

(** ** C3: the global aggregate *)

Lemma unique_In (k : string) (l : list string) : In k (unique l) <-> In k l.
Proof.
  induction l as [|x l IH]; simpl; [tauto|].
  rewrite filter_In, IH.
  destruct (String.eqb_spec x k) as [->|Hne]; simpl; [tauto|].
  split; [tauto|]. intros [H|H]; [tauto|]. right; split; [exact H | reflexivity].
Qed.

Lemma unique_NoDup (l : list string) : NoDup (unique l).
Proof.
  induction l as [|x l IH]; simpl; constructor.
  - rewrite filter_In. intros [_ H]. rewrite String.eqb_refl in H. discriminate.
  - apply NoDup_filter, IH.
Qed.

Lemma get_Series_of_dict (k : string) (d : list (string * Z)) :
  get k (Series_of_dict d) = option_map Some (get k d).
Proof.
  induction d as [|[k' v] d IH]; simpl; [reflexivity|].
  destruct (String.eqb k k'); [reflexivity | exact IH].
Qed.

Lemma row_sum (k : string) (l : list (Series string)) :
  zsum (dropna (fillna 0 (map (loc k) l))) = zsum (map (filled k) l).
Proof.
  induction l as [|s l IH]; simpl; [reflexivity|].
  unfold filled at 1. destruct (loc k s); simpl; rewrite IH; reflexivity.
Qed.

Lemma filled_country (metric k : string) (hist_json : list Hist) :
  zsum (map (filled k) (df_hist_list metric hist_json)) =
  zsum (map (count_on metric k) hist_json).
Proof.
  unfold df_hist_list.
  induction hist_json as [|c cs IH]; simpl; [reflexivity|].
  rewrite map_app, <- IH. clear IH.
  assert (E : forall a b, zsum (a ++ b) = zsum a + zsum b).
  { intros a b. induction a as [|x a IHa]; simpl; [reflexivity | rewrite IHa; lia]. }
  rewrite E. f_equal.
  unfold count_on, metric_series.
  destruct (hist_timeline c) as [[|t0 tl]|]; simpl; try reflexivity.
  destruct (get_or_empty metric (t0 :: tl)) as [|p ms] eqn:Hm; [reflexivity|].
  cbn [map zsum fold_right]. unfold filled, loc.
  change ((fst p, Some (snd p)) :: Series_of_dict ms)
    with (Series_of_dict (p :: ms)).
  rewrite get_Series_of_dict.
  destruct (get k (p :: ms)); simpl; lia.
Qed.

Lemma global_sum_keys (l : list (Series string)) :
  map fst (global_sum l) = unique (flat_map (map fst) l).
Proof.
  unfold global_sum, sum_axis1, fillna_frame, concat_axis1.
  rewrite !map_map. simpl. apply map_id.
Qed.

Lemma get_map_key {V : Type} (f : string -> V) (k : string) (ks : list string) :
  In k ks -> get k (map (fun x => (x, f x)) ks) = Some (f k).
Proof.
  induction ks as [|x ks IH]; simpl; [tauto|].
  destruct (String.eqb_spec k x) as [->|Hne]; [reflexivity|].
  intros [H|H]; [congruence | exact (IH H)].
Qed.

Lemma df_hist_list_keys (metric k : string) (hist_json : list Hist) :
  In k (flat_map (map fst) (df_hist_list metric hist_json)) <->
  exists c, In c hist_json /\ In k (map fst (metric_series metric c)).
Proof.
  unfold df_hist_list. rewrite in_flat_map. split.
  - intros (s & Hs & Hk). apply in_flat_map in Hs as (c & Hc & Hs).
    exists c. split; [exact Hc|]. unfold metric_series.
    destruct (hist_timeline c) as [[|t0 tl]|]; try contradiction.
    destruct (get_or_empty metric (t0 :: tl)) as [|p ms]; [contradiction|].
    destruct Hs as [<-|[]]. unfold Series_of_dict in Hk.
    rewrite map_map in Hk. exact Hk.
  - intros (c & Hc & Hk). unfold metric_series in Hk.
    exists (Series_of_dict (metric_series metric c)). split.
    + apply in_flat_map. exists c. split; [exact Hc|]. unfold metric_series.
      destruct (hist_timeline c) as [[|t0 tl]|]; try contradiction.
      destruct (get_or_empty metric (t0 :: tl)) as [|p ms]; [contradiction|].
      left; reflexivity.
    + unfold Series_of_dict, metric_series. rewrite map_map. exact Hk.
Qed.



Lemma insert_sorted_perm (x : Timestamp * float) (l : Series Timestamp) :
  Permutation (insert_sorted x l) (x :: l).
Proof.
  induction l as [|y l IH]; simpl; [reflexivity|].
  destruct (timestamp_leb (fst x) (fst y)); [reflexivity|].
  rewrite IH. apply perm_swap.
Qed.









(** ** C6: date keys *)




(** ** C8: no data *)

Lemma no_data_metric_series (metric : string) (c : Hist) :
  no_data metric c <-> metric_series metric c = [].
Proof.
  unfold no_data, metric_series, get_or_empty.
  destruct (hist_timeline c) as [t|]; simpl; [|tauto].
  destruct (get metric t) as [[|p ms]|]; split; intros H;
    try reflexivity; try discriminate; try tauto.
  destruct H as [H|H]; discriminate.
Qed.

Lemma df_hist_list_empty (metric : string) (hist_json : list Hist) :
  (forall c, In c hist_json -> no_data metric c) ->
  df_hist_list metric hist_json = [].
Proof.
  intros H. unfold df_hist_list.
  induction hist_json as [|c cs IH]; [reflexivity|].
  cbn [flat_map]. rewrite IH by (intros c' Hc'; apply H; right; exact Hc').
  assert (Hc : metric_series metric c = [])
    by (apply no_data_metric_series, H; left; reflexivity).
  unfold metric_series in Hc.
  destruct (hist_timeline c) as [[|t0 tl]|]; try reflexivity.
  rewrite Hc. reflexivity.
Qed.

(** C8. When the metric is absent from the raw timeline, or empty, the
    normalized series is empty, no exception is raised and no error is
    shown: the section shows the no-data notice and no chart. For one
    country this is the whole output of the section; in the global view,
    when every country lacks the metric, the notice of the aggregation
    precedes it. *)
Theorem C8_no_data (sd : Series Z -> result Statsmodels.DecomposeResult)
  (country metric : string) (w : nat) (page : list Widget) :
  (forall fetched hist,
     String.eqb country "Global" = false -> no_data metric hist ->
     country_ts country metric (Ok hist) page = (Ok [], page)
     /\ time_series_section sd country metric w fetched (Ok hist) page
        = (Ok tt, page ++ [st_info "No time series data available for the selected options."]))
  /\ (forall fetched hist_json,
        (forall c, In c hist_json -> no_data metric c) ->
        global_ts metric (Ok hist_json) page
        = (Ok [], page ++ [st_info "No historical data available to show."])
        /\ time_series_section sd "Global" metric w (Ok hist_json) fetched page
           = (Ok tt, page ++ [st_info "No historical data available to show.";
                              st_info "No time series data available for the selected options."])).
Proof.
  split.
  - intros fetched hist Hc Hno.
    apply no_data_metric_series in Hno.
    assert (E : country_ts country metric (Ok hist) page = (Ok [], page)).
    { unfold country_ts, try_except, bind, lift.
      fold (metric_series metric hist). rewrite Hno. reflexivity. }
    split; [exact E|].
    unfold time_series_section, bind. rewrite Hc, E. reflexivity.
  - intros fetched hist_json Hall.
    assert (E : global_ts metric (Ok hist_json) page
                = (Ok [], page ++ [st_info "No historical data available to show."])).
    { unfold global_ts, try_except, bind, lift.
      rewrite (df_hist_list_empty _ _ Hall). reflexivity. }
    split; [exact E|].
    unfold time_series_section, bind. cbn [String.eqb Ascii.eqb Bool.eqb].
    rewrite E. cbn [charts]. unfold show. rewrite <- app_assoc. reflexivity.
Qed.

Lemma C8_no_data_witness :
  time_series_section statsmodels_call "Italy" "tests" 7 (Ok [])
    (Ok (mkHist (Some "Italy") (Some [("cases", [("1/1/21", 10)])]))) []
  = (Ok tt, [st_info "No time series data available for the selected options."])
  /\ time_series_section statsmodels_call "Global" "tests" 7
       (Ok two_countries) (Raise IndexError) []
     = (Ok tt, [st_info "No historical data available to show.";
                st_info "No time series data available for the selected options."]).
Proof.
  destruct (C8_no_data statsmodels_call "Italy" "tests" 7 []) as [H _].
  destruct (C8_no_data statsmodels_call "Global" "tests" 7 []) as [_ G].
  split.
  - apply (H (Ok [])); [reflexivity | left; reflexivity].
  - apply (G (Raise IndexError)).
    intros c [<-|[<-|[]]]; left; reflexivity.
Defined.

(** ** C4: the guard of the decomposition *)

Section DecompositionFacts.

Variable sd : Series Z -> result Statsmodels.DecomposeResult.

(** What one run of the decomposition adds to the page. *)
Lemma decomposition_run (d : DfTs) (page : list Widget) :
  decomposition sd d page =
  (Ok tt,
   page ++
   if (30 <=? List.length (date d))%nat then
     match rbind (series_for_decomp d) sd with
     | Ok r => [st_subheader "Time series decomposition (daily new cases)";
                st_pyplot r]
     | Raise e => [st_info_exn "Decomposition not available: " e]
     end
   else []).
Proof.
  unfold decomposition.
  destruct (30 <=? List.length (date d))%nat.
  - unfold try_except, bind, lift, show.
    destruct (series_for_decomp d) as [s|e]; cbn [rbind]; [|reflexivity].
    destruct (sd s) as [r|e]; [|reflexivity].
    rewrite <- app_assoc. reflexivity.
  - unfold ret. rewrite app_nil_r. reflexivity.
Qed.

Lemma df_ts_lengths (ts : Series Timestamp) (w : nat) :
  List.length (date (df_ts ts w)) = List.length ts
  /\ List.length (new (df_ts ts w)) = List.length ts.
Proof.
  unfold df_ts; cbn [date new]. unfold fillna.
  rewrite !length_map, diff_length, length_map. split; reflexivity.
Qed.

Lemma global_ts_returns (metric : string) (fetched : result (list Hist))
  (page : list Widget) :
  exists ts page', global_ts metric fetched page = (Ok ts, page').
Proof.
  unfold global_ts, try_except, bind, lift, show, ret.
  destruct fetched as [hist_json|e]; [|eexists; eexists; reflexivity].
  destruct (df_hist_list metric hist_json) as [|s l];
    [eexists; eexists; reflexivity|].
  destruct (index_by_date (global_sum (s :: l))); eexists; eexists; reflexivity.
Qed.

Lemma country_ts_returns (country metric : string) (fetched : result Hist)
  (page : list Widget) :
  exists ts page', country_ts country metric fetched page = (Ok ts, page').
Proof.
  unfold country_ts, try_except, bind, lift, show, ret.
  destruct fetched as [hist|e]; [|eexists; eexists; reflexivity].
  destruct (index_by_date _); eexists; eexists; reflexivity.
Qed.

Lemma charts_returns (country metric : string) (ts : Series Timestamp)
  (w : nat) (page : list Widget) :
  fst (charts sd country metric ts w page) = Ok tt.
Proof.
  unfold charts. destruct ts as [|p ts]; [reflexivity|].
  unfold bind, show. rewrite decomposition_run. reflexivity.
Qed.

Lemma time_series_section_returns (country metric : string) (w : nat)
  (global : result (list Hist)) (one : result Hist) (page : list Widget) :
  fst (time_series_section sd country metric w global one page) = Ok tt.
Proof.
  unfold time_series_section, bind.
  destruct (String.eqb country "Global").
  - destruct (global_ts_returns metric global page) as (ts & page' & ->).
    apply charts_returns.
  - destruct (country_ts_returns country metric one page) as (ts & page' & ->).
    apply charts_returns.
Qed.

End DecompositionFacts.

(** C4. The decomposition is attempted exactly when the daily series has at
    least 30 points: with fewer points (29, say) the run shows nothing and
    no result exists; with 30 or more it shows either the four panels or,
    when the reindexing or the library raises, the note "Decomposition not
    available: " with the exception. The run never raises, and neither does
    the time-series section around it, so the rest of the page is
    rendered. *)
Theorem C4_decomposition_guard
  (sd : Series Z -> result Statsmodels.DecomposeResult)
  (ts : Series Timestamp) (w : nat) (page : list Widget) :
  let d := df_ts ts w in
  fst (decomposition sd d page) = Ok tt
  /\ (snd (decomposition sd d page) = page <-> (List.length (new d) < 30)%nat)
  /\ (List.length (new d) = 29%nat -> decomposition sd d page = (Ok tt, page))
  /\ (forall e, (30 <= List.length (new d))%nat ->
                rbind (series_for_decomp d) sd = Raise e ->
                decomposition sd d page
                = (Ok tt, page ++ [st_info_exn "Decomposition not available: " e]))
  /\ (forall r, (30 <= List.length (new d))%nat ->
                rbind (series_for_decomp d) sd = Ok r ->
                decomposition sd d page
                = (Ok tt, page ++ [st_subheader "Time series decomposition (daily new cases)";
                                   st_pyplot r]))
  /\ (forall country metric global one,
        fst (time_series_section sd country metric w global one page) = Ok tt).
Proof.
  intros d.
  destruct (df_ts_lengths ts w) as [Hd Hn]. fold d in Hd, Hn.
  rewrite Hn. rewrite decomposition_run, Hd. cbn [fst snd].
  split; [reflexivity|]. split; [|split; [|split; [|split]]].
  - destruct (Nat.leb_spec 30 (List.length ts)) as [H|H].
    + split; [|lia]. intros E.
      rewrite <- (app_nil_r page) in E at 2. apply app_inv_head in E.
      destruct (rbind (series_for_decomp d) sd); discriminate.
    + split; [intros _; exact H | intros _; apply app_nil_r].
  - intros ->. cbn [Nat.leb]. rewrite app_nil_r. reflexivity.
  - intros e H ->. apply Nat.leb_le in H. rewrite H. reflexivity.
  - intros r H ->. apply Nat.leb_le in H. rewrite H. reflexivity.
  - intros. apply time_series_section_returns.
Qed.

Lemma C4_decomposition_guard_witness :
  decomposition statsmodels_call (df_ts (firstn 29 daily_series) 7) []
  = (Ok tt, [])
  /\ decomposition statsmodels_call (df_ts repeated_series 7) []
     = (Ok tt, [st_info_exn "Decomposition not available: "
                  ValueError_duplicate_labels])
  /\ fst (decomposition statsmodels_call (df_ts daily_series 7) []) = Ok tt.
Proof.
  destruct (C4_decomposition_guard statsmodels_call (firstn 29 daily_series) 7 [])
    as (_ & _ & H29 & _).
  destruct (C4_decomposition_guard statsmodels_call repeated_series 7 [])
    as (_ & _ & _ & Herr & _).
  destruct (C4_decomposition_guard statsmodels_call daily_series 7 [])
    as (Hok & _).
  split; [apply H29; reflexivity|]. split; [|exact Hok].
  apply Herr; [vm_compute; lia | vm_compute; reflexivity].
Defined.

(** ** C5: the lengths of the four components *)

Lemma zmin_swap (a x : Z) (l : list Z) :
  Z.min x (zmin a l) = Z.min a (zmin x l).
Proof. unfold zmin. induction l as [|y l IH]; simpl; lia. Qed.

Lemma zmax_swap (a x : Z) (l : list Z) :
  Z.max x (zmax a l) = Z.max a (zmax x l).
Proof. unfold zmax. induction l as [|y l IH]; simpl; lia. Qed.

Lemma consecutive_bounds (l : list Z) : forall o,
  consecutive o l ->
  zmin o l = o /\ zmax o l = o + Z.of_nat (List.length l).
Proof.
  induction l as [|x l IH]; intros o H.
  - simpl. split; lia.
  - destruct H as [-> H]. destruct (IH _ H) as [Hmin Hmax].
    change (zmin o (o + 1 :: l)) with (Z.min (o + 1) (zmin o l)).
    change (zmax o (o + 1 :: l)) with (Z.max (o + 1) (zmax o l)).
    rewrite zmin_swap, zmax_swap, Hmin, Hmax.
    cbn [List.length]. split; lia.
Qed.

Lemma span_days_consecutive (dates : list Timestamp) :
  consecutive_days dates -> span_days dates = List.length dates.
Proof.
  intros (ds & -> & H). unfold span_days.
  rewrite map_map. unfold ordinal. cbn [option_map].
  rewrite <- (map_map toordinal Some), dropna_map_Some, length_map.
  rewrite <- (length_map toordinal ds).
  destruct (map toordinal ds) as [|o os]; [reflexivity|].
  destruct (consecutive_bounds os o H) as [-> ->].
  cbn [List.length]. lia.
Qed.

Lemma combine_fst {A B : Type} (l1 : list A) (l2 : list B) :
  List.length l1 = List.length l2 -> map fst (combine l1 l2) = l1.
Proof.
  revert l2; induction l1 as [|a l1 IH]; intros [|b l2] H; simpl in *;
    try discriminate; [reflexivity|].
  f_equal. apply IH. lia.
Qed.

Lemma series_for_decomp_length (d : DfTs) (s : Series Z) :
  List.length (date d) = List.length (new d) ->
  series_for_decomp d = Ok s -> List.length s = span_days (date d).
Proof.
  intros Hlen. unfold series_for_decomp, asfreq_D, span_days.
  rewrite <- (combine_fst (date d) (new d) Hlen) at 2.
  rewrite map_map.
  destruct (combine (date d) (new d)) as [|p ps].
  - cbn [rbind]. intros H. injection H as <-. reflexivity.
  - destruct (dropna (map (fun p => ordinal (fst p)) (p :: ps))) as [|o os];
      cbn [rbind]; [discriminate|].
    destruct (has_duplicates _); cbn [rbind]; [discriminate|].
    intros H. injection H as <-.
    unfold fillna.
    rewrite length_combine, !length_map, length_seq. lia.
Qed.

Lemma dropna_length_no_nan (xs : list float) :
  existsb (fun v => match v with None => true | Some _ => false end) xs = false ->
  List.length (dropna xs) = List.length xs.
Proof.
  induction xs as [|[z|] xs IH]; simpl; intros H;
    [reflexivity | f_equal; apply IH, H | discriminate].
Qed.

(** The model of the library returns four components as long as its
    input. *)
Lemma components_lengths (x : list Q) :
  List.length (Statsmodels.observed (Statsmodels.components x)) = List.length x
  /\ List.length (Statsmodels.trend (Statsmodels.components x)) = List.length x
  /\ List.length (Statsmodels.seasonal (Statsmodels.components x)) = List.length x
  /\ List.length (Statsmodels.resid (Statsmodels.components x)) = List.length x.
Proof.
  unfold Statsmodels.components.
  cbn [Statsmodels.observed Statsmodels.trend Statsmodels.seasonal
       Statsmodels.resid].
  unfold Statsmodels.extrapolate_trend, Statsmodels.convolution_filter.
  repeat (rewrite ?length_map, ?length_combine, ?length_seq).
  repeat split; lia.
Qed.

Lemma statsmodels_call_lengths (s : Series Z) (r : Statsmodels.DecomposeResult) :
  statsmodels_call s = Ok r ->
  List.length (Statsmodels.observed r) = List.length s
  /\ List.length (Statsmodels.trend r) = List.length s
  /\ List.length (Statsmodels.seasonal r) = List.length s
  /\ List.length (Statsmodels.resid r) = List.length s.
Proof.
  unfold statsmodels_call, Statsmodels.seasonal_decompose.
  destruct (existsb _ (map snd s)) eqn:Hnan; [discriminate|].
  destruct (List.length (map snd s) <? 14)%nat; [discriminate|].
  intros H. injection H as <-.
  apply dropna_length_no_nan in Hnan. rewrite length_map in Hnan.
  rewrite <- Hnan, <- (length_map inject_Z (dropna (map snd s))).
  apply components_lengths.
Qed.

(** C5. When the decomposition is shown, the series had at least
    30 points and each of the four components has one point per calendar
    day from the first to the last date of the series: the length of the
    daily series after it is reindexed on a continuous daily index. That is
    the length of the daily-delta series when its dates are consecutive
    days. The library is any routine whose components are as long as its
    input. *)
Theorem C5_decomposition_lengths
  (sd : Series Z -> result Statsmodels.DecomposeResult)
  (ts : Series Timestamp) (w : nat) (page : list Widget)
  (r : Statsmodels.DecomposeResult) :
  let d := df_ts ts w in
  (forall s r',
     sd s = Ok r' ->
     List.length (Statsmodels.observed r') = List.length s
     /\ List.length (Statsmodels.trend r') = List.length s
     /\ List.length (Statsmodels.seasonal r') = List.length s
     /\ List.length (Statsmodels.resid r') = List.length s) ->
  snd (decomposition sd d page)
  = page ++ [st_subheader "Time series decomposition (daily new cases)";
             st_pyplot r] ->
  (30 <= List.length (new d))%nat
  /\ List.length (Statsmodels.observed r) = span_days (date d)
  /\ List.length (Statsmodels.trend r) = span_days (date d)
  /\ List.length (Statsmodels.seasonal r) = span_days (date d)
  /\ List.length (Statsmodels.resid r) = span_days (date d)
  /\ (consecutive_days (date d) -> span_days (date d) = List.length (new d)).
Proof.
  intros d Hsd Hshown.
  destruct (df_ts_lengths ts w) as [Hd Hn]. fold d in Hd, Hn.
  rewrite decomposition_run in Hshown. cbn [snd] in Hshown.
  apply app_inv_head in Hshown.
  destruct (Nat.leb_spec 30 (List.length (date d))) as [H30|H30];
    [|discriminate].
  destruct (series_for_decomp d) as [s|e] eqn:Hs; cbn [rbind] in Hshown;
    [|discriminate].
  destruct (sd s) as [r'|e] eqn:Hr; [|discriminate].
  injection Hshown as <-.
  apply series_for_decomp_length in Hs; [|congruence].
  destruct (Hsd s r' Hr) as (H1 & H2 & H3 & H4).
  rewrite <- Hs. repeat split; try assumption; try lia.
  intros Hc. rewrite Hs, Hn, <- Hd. apply span_days_consecutive, Hc.
Qed.

Lemma C5_decomposition_lengths_witness :
  snd (decomposition statsmodels_call (df_ts daily_series 7) [])
  = [st_subheader "Time series decomposition (daily new cases)";
     st_pyplot daily_result]
  /\ List.length (Statsmodels.observed daily_result) = 30%nat
  /\ List.length (Statsmodels.resid daily_result) = 30%nat.
Proof.
  assert (E : snd (decomposition statsmodels_call (df_ts daily_series 7) [])
              = [] ++ [st_subheader "Time series decomposition (daily new cases)";
                       st_pyplot daily_result])
    by (vm_compute; reflexivity).
  split; [exact E|].
  destruct (C5_decomposition_lengths statsmodels_call daily_series 7 []
              daily_result statsmodels_call_lengths E)
    as (_ & H1 & _ & _ & H4 & _).
  split; [exact H1 | exact H4].
Defined.

(** Where a date is missing the components are longer than the daily-delta
    series: thirty points that span thirty-one days give components of
    thirty-one points. *)
Lemma C5_counterexample :
  List.length (new (df_ts gap_series 7)) = 30%nat
  /\ match snd (decomposition statsmodels_call (df_ts gap_series 7) []) with
     | [_; st_pyplot r] =>
         List.length (Statsmodels.observed r) = 31%nat
         /\ List.length (Statsmodels.trend r) = 31%nat
         /\ List.length (Statsmodels.seasonal r) = 31%nat
         /\ List.length (Statsmodels.resid r) = 31%nat
     | _ => False
     end.
Proof. vm_compute. repeat split. Qed.

(** ** C9 and C10: the KPIs *)

Lemma digits_no_comma (n : Z) :
  forallb (fun c => negb (Ascii.eqb c ",")) (digits n) = true.
Proof.
  unfold digits. generalize (N.to_uint (Z.abs_N n)). intros u.
  unfold NilZero.string_of_uint.
  assert (H : forall v, forallb (fun c => negb (Ascii.eqb c ","))
                          (list_ascii_of_string (NilEmpty.string_of_uint v)) = true)
    by (induction v; simpl; auto).
  destruct u; try apply H; reflexivity.
Qed.

Lemma commas_strip (ds : list ascii) : forall k,
  forallb (fun c => negb (Ascii.eqb c ",")) ds = true ->
  filter (fun c => negb (Ascii.eqb c ",")) (commas k ds) = ds.
Proof.
  induction ds as [|d ds IH]; intros k H; [reflexivity|].
  simpl in H. apply andb_prop in H as [Hd Hds].
  simpl. destruct (k =? 3)%nat; simpl; rewrite Hd, IH by exact Hds; reflexivity.
Qed.

(** Without its separators, the formatted magnitude is the decimal
    numeral. *)
Lemma format_comma_strip (n : Z) :
  0 <= n ->
  filter (fun c => negb (Ascii.eqb c ","))
         (list_ascii_of_string (format_comma n)) = digits n.
Proof.
  intros Hn. unfold format_comma.
  destruct (Z.ltb_spec n 0) as [H|_]; [lia|].
  cbn [String.append]. rewrite list_ascii_of_string_of_list_ascii.
  assert (F : forall l, filter (fun c => negb (Ascii.eqb c ",")) (rev l)
                        = rev (filter (fun c => negb (Ascii.eqb c ",")) l)).
  { induction l as [|x l IHl]; [reflexivity|].
    simpl. rewrite filter_app, IHl. simpl.
    destruct (negb (Ascii.eqb x ",")); simpl; [reflexivity | apply app_nil_r]. }
  rewrite F, commas_strip, rev_involutive; [reflexivity|].
  rewrite forallb_forall. intros c Hc. apply in_rev in Hc.
  pose proof (digits_no_comma n) as D. rewrite forallb_forall in D.
  apply D, Hc.
Qed.

(** C9. With the one-row table of the scenario and its country selected,
    the four KPIs read 100, 5, 80 and 200; larger values are grouped in
    thousands: 1234 is written 1,234, and the KPIs of a table with larger
    counts show the separators. *)
Theorem C9_kpis :
  kpi_section table_X "X" []
  = (Ok tt, [st_metric "Total Cases" "100"; st_metric "Total Deaths" "5";
             st_metric "Total Recovered" "80"; st_metric "Total Tests" "200"])
  /\ format_comma 1234 = "1,234"
  /\ kpi_section table_large "X" []
     = (Ok tt, [st_metric "Total Cases" "1,234"; st_metric "Total Deaths" "1,000";
                st_metric "Total Recovered" "999";
                st_metric "Total Tests" "1,234,567"])
  /\ kpi_section table_large "Global" []
     = (Ok tt, [st_metric "Total Cases" "12,346,912";
                st_metric "Total Deaths" "1,000";
                st_metric "Total Recovered" "124,455";
                st_metric "Total Tests" "1,234,567"])
  /\ (forall n, 0 <= n ->
        filter (fun c => negb (Ascii.eqb c ","))
               (list_ascii_of_string (format_comma n)) = digits n).
Proof.
  split; [reflexivity|]. split; [reflexivity|]. split; [reflexivity|].
  split; [reflexivity|]. exact format_comma_strip.
Qed.

Lemma series_sum_present (rs : list (list (string * Value))) (t : Z) :
  series_sum (dropna_values (map (fun r => cell r "tests") rs)) = Ok t ->
  t = zsum (flat_map (fun r => match cell r "tests" with
                               | Num z => [z]
                               | _ => []
                               end) rs).
Proof.
  revert t; induction rs as [|r rs IH]; intros t H.
  - simpl in H. injection H as <-. reflexivity.
  - cbn [map dropna_values filter flat_map] in H |- *.
    destruct (cell r "tests") as [|z|s|kv]; cbn [isna negb] in H.
    + apply IH, H.
    + cbn [series_sum] in H. fold (dropna_values (map (fun r => cell r "tests") rs)) in H.
      destruct (series_sum (dropna_values (map (fun r => cell r "tests") rs)))
        as [t'|e]; [|discriminate].
      cbn [rbind] in H. injection H as <-.
      cbn [app zsum fold_right]. rewrite (IH t' eq_refl). reflexivity.
    + discriminate.
    + discriminate.
Qed.

(** C10. For a selected country whose tests field is absent or
    NaN, the Total Tests KPI reads N/A and the three other KPIs show the
    country's numbers. In the Global view, when the table has a tests
    column the tests total is the sum over the rows whose tests value is
    present; when no row carries a tests field the table has no such column
    and the Total Tests KPI reads N/A. The three other KPIs of a country
    need a number in each of cases, deaths and recovered of its row: when
    one of them cannot be converted, the exception leaves the section and no
    KPI is shown. The global parts are for a table whose totals can be
    computed. *)
Theorem C10_tests_kpi (df : DataFrame) (country : string)
  (page : list Widget) :
  (forall row tc td tr,
     String.eqb country "Global" = false ->
     select_row df country = Ok row ->
     has_column df "tests" = false \/ cell row "tests" = NaN ->
     rbind (row_item df row "cases") int = Ok tc ->
     rbind (row_item df row "deaths") int = Ok td ->
     rbind (row_item df row "recovered") int = Ok tr ->
     kpi_section df country page
     = (Ok tt, page ++ [st_metric "Total Cases" (format_comma tc);
                        st_metric "Total Deaths" (format_comma td);
                        st_metric "Total Recovered" (format_comma tr);
                        st_metric "Total Tests" "N/A"]))
  /\ (forall t,
        has_column df "tests" = true ->
        totals df "Global" = Ok t ->
        total_tests t = Some (present_tests_sum df))
  /\ (forall t,
        has_column df "tests" = false ->
        totals df "Global" = Ok t ->
        kpi_section df "Global" page
        = (Ok tt, page ++ [st_metric "Total Cases" (format_comma (total_cases t));
                           st_metric "Total Deaths" (format_comma (total_deaths t));
                           st_metric "Total Recovered" (format_comma (total_recovered t));
                           st_metric "Total Tests" "N/A"]))
  /\ (forall row,
        String.eqb country "Global" = false ->
        select_row df country = Ok row ->
        (exists e, rbind (row_item df row "cases") int = Raise e)
        \/ (exists e, rbind (row_item df row "deaths") int = Raise e)
        \/ (exists e, rbind (row_item df row "recovered") int = Raise e) ->
        exists e, kpi_section df country page = (Raise e, page)).
Proof.
  split; [|split; [|split]].
  - intros row tc td tr Hc Hrow Htests Hcases Hdeaths Hrec.
    assert (T : totals df country = Ok (mkTotals tc td tr None)).
    { unfold totals. rewrite Hc, Hrow. cbn [rbind].
      unfold rbind in Hcases, Hdeaths, Hrec |- *.
      destruct (row_item df row "cases") as [v1|]; [|discriminate].
      rewrite Hcases.
      destruct (row_item df row "deaths") as [v2|]; [|discriminate].
      rewrite Hdeaths.
      destruct (row_item df row "recovered") as [v3|]; [|discriminate].
      rewrite Hrec.
      destruct Htests as [-> | ->]; [reflexivity|].
      cbn [isna negb]. rewrite andb_false_r. reflexivity. }
    unfold kpi_section, bind, lift, show. rewrite T.
    cbn [total_cases total_deaths total_recovered total_tests].
    rewrite <- !app_assoc. reflexivity.
  - intros t Hcol Ht. unfold totals in Ht. cbn [String.eqb Ascii.eqb Bool.eqb] in Ht.
    destruct (column_total df "cases") as [tc|]; [|discriminate].
    destruct (column_total df "deaths") as [td|]; [|discriminate].
    destruct (column_total df "recovered") as [tr|]; [|discriminate].
    cbn [rbind] in Ht. rewrite Hcol in Ht.
    unfold column in Ht. rewrite Hcol in Ht. cbn [rbind] in Ht.
    destruct (series_sum (dropna_values (map (fun r => cell r "tests") (records df))))
      as [s|] eqn:Hs; [|discriminate].
    cbn [rbind] in Ht. injection Ht as <-. cbn [total_tests].
    f_equal. apply series_sum_present, Hs.
  - intros t Hcol Ht.
    assert (N : total_tests t = None).
    { unfold totals in Ht. cbn [String.eqb Ascii.eqb Bool.eqb] in Ht.
      destruct (column_total df "cases") as [tc|]; [|discriminate].
      destruct (column_total df "deaths") as [td|]; [|discriminate].
      destruct (column_total df "recovered") as [tr|]; [|discriminate].
      cbn [rbind] in Ht. rewrite Hcol in Ht. cbn [rbind] in Ht.
      injection Ht as <-. reflexivity. }
    unfold kpi_section, bind, lift, show. rewrite Ht, N.
    rewrite <- !app_assoc. reflexivity.
  - intros row Hc Hrow Hbad.
    assert (T : exists e, totals df country = Raise e).
    { unfold totals. rewrite Hc, Hrow. cbn [rbind].
      destruct (rbind (row_item df row "cases") int) as [tc|e1];
        [|exists e1; reflexivity].
      destruct (rbind (row_item df row "deaths") int) as [td|e2];
        [|exists e2; reflexivity].
      destruct (rbind (row_item df row "recovered") int) as [tr|e3];
        [|exists e3; reflexivity].
      destruct Hbad as [[e H]|[[e H]|[e H]]]; discriminate. }
    destruct T as [e T]. exists e.
    unfold kpi_section, bind, lift. rewrite T. reflexivity.
Qed.

Lemma C10_tests_kpi_witness :
  kpi_section table_large "Y" []
  = (Ok tt, [st_metric "Total Cases" "12,345,678"; st_metric "Total Deaths" "0";
             st_metric "Total Recovered" "123,456"; st_metric "Total Tests" "N/A"])
  /\ total_tests (mkTotals 12346912 1000 124455 (Some 1234567))
     = Some (present_tests_sum table_large)
  /\ kpi_section table_no_tests "Global" []
     = (Ok tt, [st_metric "Total Cases" "100"; st_metric "Total Deaths" "5";
                st_metric "Total Recovered" "80"; st_metric "Total Tests" "N/A"])
  /\ (exists e,
        kpi_section (DataFrame_of_json summary_json) "Y" [] = (Raise e, [])).
Proof.
  destruct (C10_tests_kpi table_large "Y" []) as (H1 & H2 & _).
  destruct (C10_tests_kpi table_no_tests "Global" []) as (_ & _ & H3 & _).
  destruct (C10_tests_kpi (DataFrame_of_json summary_json) "Y" [])
    as (_ & _ & _ & H4).
  split; [|split; [|split]].
  - apply (H1 [("country", Str "Y"); ("cases", Num 12345678);
               ("deaths", Num 0); ("recovered", Num 123456)]
              12345678 0 123456); try reflexivity.
    right; reflexivity.
  - apply H2; reflexivity.
  - apply (H3 (mkTotals 100 5 80 None)); reflexivity.
  - apply (H4 [("country", Str "Y"); ("deaths", Num 1); ("recovered", Num 2);
               ("active", Num 3); ("population", Num 500);
               ("countryInfo", Dict [("iso2", Str "YY")])]);
      [reflexivity | reflexivity |].
    left. exists ValueError_int_of_nan. reflexivity.
Defined.

(** In the Global view of a table in which no country reports tests, the
    sum over the rows with a tests value is 0, which would be shown as 0,
    and the KPI reads N/A. And a country whose row has neither tests nor
    cases gets no KPI at all: the conversion of its missing cases raises
    before anything is shown, so Total Tests does not read N/A and the other
    KPIs are not rendered. *)
Lemma C10_counterexample :
  totals table_no_tests "Global" = Ok (mkTotals 100 5 80 None)
  /\ present_tests_sum table_no_tests = 0
  /\ None <> Some (present_tests_sum table_no_tests)
  /\ kpi_section table_no_tests "Global" []
     = (Ok tt, [st_metric "Total Cases" "100"; st_metric "Total Deaths" "5";
                st_metric "Total Recovered" "80"; st_metric "Total Tests" "N/A"])
  /\ format_comma (present_tests_sum table_no_tests) = "0"
  /\ (exists row,
        select_row (DataFrame_of_json summary_json) "Y" = Ok row
        /\ cell row "tests" = NaN
        /\ cell row "cases" = NaN
        /\ kpi_section (DataFrame_of_json summary_json) "Y" []
           = (Raise ValueError_int_of_nan, [])).
Proof.
  split; [reflexivity|]. split; [reflexivity|]. split; [discriminate|].
  split; [reflexivity|]. split; [reflexivity|].
  eexists. split; [reflexivity|]. repeat split.
Qed.

(** ** C7: the export read back *)

Section Reading.

Variable quote_cr : bool.

Lemma special_cases (c : ascii) :
  is_special quote_cr c = false ->
  Ascii.eqb c newline = false /\ Ascii.eqb c dquote = false
  /\ Ascii.eqb c comma = false.
Proof.
  unfold is_special. intros H.
  apply orb_false_elim in H as [H Hcr].
  apply orb_false_elim in H as [H Hnl].
  apply orb_false_elim in H as [Hco Hdq].
  repeat split; assumption.
Qed.

(** A run of ordinary characters inside an unquoted field. *)
Lemma read_plain (f : list ascii) : forall fld rec rest,
  existsb (is_special quote_cr) f = false ->
  read_from InField fld rec (f ++ rest) = read_from InField (rev f ++ fld) rec rest.
Proof.
  induction f as [|c f IH]; intros fld rec rest H; [reflexivity|].
  simpl in H. apply orb_false_elim in H as [Hc Hf].
  destruct (special_cases c Hc) as (Hnl & _ & Hco).
  cbn [app read_from]. rewrite Hnl, Hco, (IH _ _ _ Hf).
  cbn [rev]. rewrite <- app_assoc. reflexivity.
Qed.

(** The body of a quoted field up to its closing quote. *)
Lemma read_quoted (f : list ascii) : forall fld rec rest,
  read_from InQuoted fld rec (escape f ++ dquote :: rest)
  = read_from QuoteInQuoted (rev f ++ fld) rec rest.
Proof.
  induction f as [|c f IH]; intros fld rec rest; [reflexivity|].
  unfold escape in *. cbn [flat_map rev]. rewrite <- !app_assoc.
  destruct (Ascii.eqb c dquote) eqn:Hc.
  - apply Ascii.eqb_eq in Hc. subst c.
    cbn [app read_from]. rewrite Ascii.eqb_refl. apply IH.
  - cbn [app read_from]. rewrite Hc. apply IH.
Qed.

(** A written field followed by a comma. *)
Lemma read_field_comma (st : ReaderState) (f : list ascii) rec rest :
  at_start st ->
  read_from st [] rec (quote_field quote_cr f ++ comma :: rest)
  = read_from StartField [] (f :: rec) rest.
Proof.
  intros Hst. unfold quote_field.
  destruct (existsb (is_special quote_cr) f) eqn:Hsp.
  - cbn [app]. destruct Hst as [-> | ->]; cbn [read_from];
      rewrite <- app_assoc; cbn [app]; rewrite read_quoted, app_nil_r;
      cbn [read_from]; unfold end_field; rewrite rev_involutive; reflexivity.
  - destruct f as [|c f].
    + destruct Hst as [-> | ->]; reflexivity.
    + simpl in Hsp. apply orb_false_elim in Hsp as [Hc Hf].
      destruct (special_cases c Hc) as (Hnl & Hdq & Hco).
      cbn [app].
      destruct Hst as [-> | ->]; cbn [read_from]; rewrite Hnl, Hdq, Hco;
        rewrite (read_plain f _ _ _ Hf); cbn [read_from];
        unfold end_field; cbn [app];
        change (rev f ++ [c]) with (rev (c :: f));
        rewrite rev_involutive; reflexivity.
Qed.

(** A written field that ends its record. *)
Lemma read_field_newline (st : ReaderState) (f : list ascii) rec rest :
  at_start st -> st = StartField \/ f <> [] ->
  read_from st [] rec (quote_field quote_cr f ++ newline :: rest)
  = rev (f :: rec) :: read_from StartRecord [] [] rest.
Proof.
  intros Hst Hne. unfold quote_field.
  destruct (existsb (is_special quote_cr) f) eqn:Hsp.
  - cbn [app]. destruct Hst as [-> | ->]; cbn [read_from];
      rewrite <- app_assoc; cbn [app]; rewrite read_quoted, app_nil_r;
      cbn [read_from]; unfold end_field; rewrite rev_involutive; reflexivity.
  - destruct f as [|c f].
    + destruct Hne as [-> | Hne]; [reflexivity | contradiction].
    + simpl in Hsp. apply orb_false_elim in Hsp as [Hc Hf].
      destruct (special_cases c Hc) as (Hnl & Hdq & Hco).
      cbn [app].
      destruct Hst as [-> | ->]; cbn [read_from]; rewrite Hnl, Hdq, Hco;
        rewrite (read_plain f _ _ _ Hf); cbn [read_from];
        unfold end_field; cbn [app];
        change (rev f ++ [c]) with (rev (c :: f));
        rewrite rev_involutive; reflexivity.
Qed.

Lemma read_fields (fs : list (list ascii)) : forall st rec rest,
  fs <> [] -> st = StartField \/ (st = StartRecord /\ fs <> [[]]) ->
  read_from st [] rec (join_fields (map (quote_field quote_cr) fs) ++ newline :: rest)
  = (rev rec ++ fs) :: read_from StartRecord [] [] rest.
Proof.
  induction fs as [|f fs IH]; intros st rec rest Hne Hst; [contradiction|].
  destruct fs as [|g gs].
  - cbn [map join_fields]. rewrite read_field_newline.
    + reflexivity.
    + destruct Hst as [-> | [-> _]]; [right | left]; reflexivity.
    + destruct Hst as [-> | [_ H]]; [left; reflexivity|].
      right. intros ->. apply H. reflexivity.
  - change (join_fields (map (quote_field quote_cr) (f :: g :: gs)))
      with (quote_field quote_cr f ++ comma :: join_fields (map (quote_field quote_cr) (g :: gs))).
    rewrite <- app_assoc. cbn [app]. rewrite read_field_comma.
    + rewrite IH; [|discriminate | left; reflexivity].
      cbn [rev]. rewrite <- app_assoc. reflexivity.
    + destruct Hst as [-> | [-> _]]; [right | left]; reflexivity.
Qed.

(** One written record is read back as it was, whatever its fields hold. *)
Lemma read_row (fs : list (list ascii)) (rest : list ascii) :
  read_from StartRecord [] [] (write_row quote_cr fs ++ rest)
  = fs :: read_from StartRecord [] [] rest.
Proof.
  destruct fs as [|f fs].
  - reflexivity.
  - assert (G : f :: fs <> [[]] ->
                read_from StartRecord [] []
                  ((join_fields (map (quote_field quote_cr) (f :: fs)) ++ [newline]) ++ rest)
                = (f :: fs) :: read_from StartRecord [] [] rest).
    { intros H. rewrite <- app_assoc. cbn [app].
      rewrite read_fields; [reflexivity | discriminate | right; split; [reflexivity | exact H]]. }
    destruct f as [|c f]; destruct fs as [|g gs];
      try (apply G; discriminate).
    reflexivity.
Qed.

Lemma read_rows (rows : list (list (list ascii))) :
  read_csv (flat_map (write_row quote_cr) rows) = rows.
Proof.
  unfold read_csv. induction rows as [|r rows IH]; [reflexivity|].
  cbn [flat_map]. rewrite read_row, IH. reflexivity.
Qed.

End Reading.

Lemma set_column_shape (df : DataFrame) (c : string) (vals : list Value) :
  List.length vals = List.length (records df) ->
  List.length (records (set_column df c vals)) = List.length (records df)
  /\ In c (columns (set_column df c vals))
  /\ (forall x, In x (columns df) -> In x (columns (set_column df c vals))).
Proof.
  intros H. unfold set_column; cbn [records columns].
  rewrite length_map, length_combine, H, Nat.min_id.
  split; [reflexivity|]. unfold has_column.
  destruct (existsb (String.eqb c) (columns df)) eqn:E.
  - split; [|auto]. apply existsb_exists in E as (x & Hx & Hcx).
    apply String.eqb_eq in Hcx. subst x. exact Hx.
  - split; [apply in_or_app; right; left; reflexivity|].
    intros x Hx. apply in_or_app. left. exact Hx.
Qed.

Lemma set_iso2_shape (df0 df : DataFrame) :
  set_iso2 df0 = Ok df ->
  List.length (records df) = List.length (records df0)
  /\ In "iso2" (columns df)
  /\ (forall x, In x (columns df0) -> In x (columns df)).
Proof.
  unfold set_iso2. intros H.
  assert (S1 := set_column_shape df0 "iso2"
                  (map (fun r => iso2_of (cell r "countryInfo")) (records df0))
                  (length_map _ _)).
  assert (S2 := set_column_shape df0 "iso2"
                  (map (fun _ => NaN) (records df0)) (length_map _ _)).
  destruct (has_column df0 "countryInfo").
  - destruct (records df0) as [|r0 rs] eqn:Hr; [discriminate|].
    rewrite <- Hr in *.
    destruct (cell r0 "countryInfo"); injection H as <-; assumption.
  - injection H as <-. exact S2.
Qed.

(** C7. The export is the summary table as it stands when the button is
    built: the fetched table with the iso2 column. Read back, the text gives
    the column names as its first record and then exactly one record per
    row of the table, each with one field per column, holding the text
    written for the cell; this holds for every rendering of the cells and
    whether or not the writer quotes a carriage return. *)
Theorem C7_csv_round_trip (quote_cr : bool) (str_cell : Value -> string)
  (df0 df : DataFrame) :
  set_iso2 df0 = Ok df ->
  read_csv (to_csv quote_cr str_cell df) = csv_header df :: csv_rows str_cell df
  /\ map string_of_list_ascii (csv_header df) = columns df
  /\ List.length (csv_rows str_cell df) = List.length (records df)
  /\ List.length (records df) = List.length (records df0)
  /\ Forall (fun r => List.length r = List.length (columns df))
            (csv_rows str_cell df)
  /\ In "iso2" (columns df)
  /\ (forall x, In x (columns df0) -> In x (columns df)).
Proof.
  intros H. destruct (set_iso2_shape df0 df H) as (Hlen & Hiso & Hcols).
  split; [apply read_rows|]. split.
  { unfold csv_header. rewrite map_map.
    rewrite <- (map_id (columns df)) at 2. apply map_ext.
    apply string_of_list_ascii_of_string. }
  split; [unfold csv_rows; apply length_map|].
  split; [exact Hlen|]. split.
  { unfold csv_rows. apply Forall_forall. intros r Hr.
    apply in_map_iff in Hr as (x & <- & _). apply length_map. }
  split; assumption.
Qed.

Lemma C7_csv_round_trip_witness :
  columns table_exported = ["country"; "cases"; "countryInfo"; "tests"; "iso2"]
  /\ read_csv (to_csv true str_cell_example table_exported)
     = csv_header table_exported :: csv_rows str_cell_example table_exported
  /\ List.length (csv_rows str_cell_example table_exported) = 3%nat.
Proof.
  destruct (C7_csv_round_trip true str_cell_example table_fetched table_exported
              eq_refl) as (H1 & _ & H3 & _).
  split; [reflexivity|]. split; [exact H1 | exact H3].
Defined.

(** ** The order of the series *)

Lemma timestamp_leb_total (a b : Timestamp) :
  timestamp_leb a b = false -> timestamp_leb b a = true.
Proof.
  destruct a as [x|], b as [y|]; simpl; try reflexivity; try discriminate.
  intros H. apply Z.leb_gt in H. apply Z.leb_le. lia.
Qed.

Lemma timestamp_leb_trans (a b c : Timestamp) :
  timestamp_leb a b = true -> timestamp_leb b c = true ->
  timestamp_leb a c = true.
Proof.
  destruct a as [x|], b as [y|], c as [z|]; simpl;
    try reflexivity; try discriminate.
  intros H1 H2. apply Z.leb_le in H1, H2. apply Z.leb_le. lia.
Qed.

Lemma insert_sorted_order (x : Timestamp * float) (l : Series Timestamp) :
  StronglySorted in_order l -> StronglySorted in_order (insert_sorted x l).
Proof.
  induction l as [|y l IH]; intros Hs; simpl.
  - constructor; [constructor | constructor].
  - inversion Hs as [|y' l' Hl Hall]; subst.
    destruct (timestamp_leb (fst x) (fst y)) eqn:Hxy.
    + constructor; [exact Hs|]. constructor; [exact Hxy|].
      eapply Forall_impl; [|exact Hall].
      intros z Hz. unfold in_order in *.
      eapply timestamp_leb_trans; eassumption.
    + constructor; [apply IH, Hl|].
      assert (Hperm := insert_sorted_perm x l).
      apply Forall_forall. intros z Hz.
      apply (Permutation_in _ Hperm) in Hz. destruct Hz as [<-|Hz].
      * apply timestamp_leb_total, Hxy.
      * rewrite Forall_forall in Hall. apply Hall, Hz.
Qed.

(** The series indexed by date is in ascending order of its dates, NaT
    last, whatever the order of the keys in the JSON. *)
Theorem sort_index_ascending (ts : Series string) (r : Series Timestamp) :
  index_by_date ts = Ok r -> StronglySorted in_order r.
Proof.
  unfold index_by_date. destruct (to_datetime (map fst ts)) as [idx|];
    cbn [rbind]; [|discriminate].
  intros H. injection H as <-. unfold sort_index.
  induction (set_index ts idx) as [|x s IH]; simpl; [constructor|].
  apply insert_sorted_order, IH.
Qed.

Lemma sort_index_ascending_witness :
  StronglySorted in_order
    [(Some (mkDate 2020 12 31), Some 3); (Some (mkDate 2021 1 2), Some 7);
     (Some (mkDate 2021 1 10), Some 5)].
Proof.
  apply (sort_index_ascending
           (Series_of_dict [("1/10/21", 5); ("12/31/20", 3); ("1/2/21", 7)])).
  reflexivity.
Defined.

(** ** The derived columns *)

Lemma diff_numbers_from (l : list Z) : forall (p : float) (x : Z),
  map (fun q => fsub (fst q) (snd q))
      (combine (map Some l) (firstn (List.length l) (Some x :: map Some l)))
  = map Some (deltas_from x l).
Proof.
  induction l as [|y l IH]; intros p x; [reflexivity|].
  cbn [map List.length firstn combine deltas_from fst snd fsub].
  f_equal. apply (IH p y).
Qed.

(** The column [new] of a series of counts, as numbers. *)
Lemma new_of_counts (l : list Z) :
  fillna 0 (diff (map Some l)) = map Some (deltas l).
Proof.
  destruct l as [|x l]; [reflexivity|].
  unfold diff, shift1. rewrite length_map.
  cbn [map List.length firstn combine fst snd fsub fillna deltas].
  f_equal. rewrite (diff_numbers_from l None x).
  unfold fillna. rewrite map_map. reflexivity.
Qed.

Lemma deltas_from_sum (l : list Z) : forall (x : Z) (i : nat),
  (i <= List.length l)%nat ->
  zsum (firstn i (deltas_from x l)) = nth i (x :: l) 0 - x.
Proof.
  induction l as [|y l IH]; intros x i Hi.
  - simpl in Hi. replace i with 0%nat by lia. simpl. lia.
  - destruct i as [|i]; [simpl; lia|].
    cbn [deltas_from firstn zsum fold_right nth].
    change (fold_right Z.add 0 (firstn i (deltas_from y l)))
      with (zsum (firstn i (deltas_from y l))).
    rewrite IH by (simpl in Hi; lia).
    destruct i; simpl; lia.
Qed.

Lemma In_slice {A : Type} (l : list A) (lo hi : nat) (x : A) :
  In x (slice l lo hi) -> In x l.
Proof.
  unfold slice. intros H.
  rewrite <- (firstn_skipn lo l). apply in_or_app. right.
  rewrite <- (firstn_skipn (hi + 1 - lo) (skipn lo l)).
  apply in_or_app. left. exact H.
Qed.

Lemma pos_of_nat_Z (n : nat) : (0 < n)%nat -> Z.pos (Pos.of_nat n) = Z.of_nat n.
Proof.
  intros H. destruct n as [|n]; [lia|].
  rewrite <- Pos.of_nat_succ, Zpos_P_of_succ_nat. lia.
Qed.

Lemma zsum_lower (a : Z) (l : list Z) :
  Forall (fun z => a <= z) l -> a * Z.of_nat (List.length l) <= zsum l.
Proof.
  induction 1 as [|z l Hz Hl IH]; simpl; [lia|].
  change (fold_right Z.add 0 l) with (zsum l). lia.
Qed.

Lemma zsum_upper (b : Z) (l : list Z) :
  Forall (fun z => z <= b) l -> zsum l <= b * Z.of_nat (List.length l).
Proof.
  induction 1 as [|z l Hz Hl IH]; simpl; [lia|].
  change (fold_right Z.add 0 l) with (zsum l). lia.
Qed.

Lemma mean_of_lower (a : Z) (l : list Z) :
  l <> [] -> Forall (fun z => a <= z) l -> (inject_Z a <= mean_of l)%Q.
Proof.
  intros Hne H. unfold mean_of, inject_Z, Qle. cbn [Qnum Qden].
  rewrite pos_of_nat_Z by (destruct l; [contradiction | simpl; lia]).
  pose proof (zsum_lower a l H). lia.
Qed.

Lemma mean_of_upper (b : Z) (l : list Z) :
  l <> [] -> Forall (fun z => z <= b) l -> (mean_of l <= inject_Z b)%Q.
Proof.
  intros Hne H. unfold mean_of, inject_Z, Qle. cbn [Qnum Qden].
  rewrite pos_of_nat_Z by (destruct l; [contradiction | simpl; lia]).
  pose proof (zsum_upper b l H). lia.
Qed.

(** Every cell of the rolling mean of a column of numbers is the mean of a
    non-empty part of the column. *)
Lemma rolling_mean_cells (w : nat) (l : list Z) (c : option Q) :
  (1 <= w)%nat -> In c (rolling_mean w 1 (map Some l)) ->
  exists lo hi, c = Some (mean_of (slice l lo hi)) /\ slice l lo hi <> [].
Proof.
  intros Hw Hin. apply In_nth_error in Hin as [i Hi].
  assert (Hlt : (i < List.length l)%nat).
  { assert (H : nth_error (rolling_mean w 1 (map Some l)) i <> None)
      by (rewrite Hi; discriminate).
    apply nth_error_Some in H. unfold rolling_mean in H.
    rewrite length_map, length_seq, length_map in H. exact H. }
  rewrite rolling_mean_numbers in Hi by assumption.
  injection Hi as <-. exists (i + 1 - w)%nat, i. split; [reflexivity|].
  intros E. apply (f_equal (@List.length Z)) in E.
  rewrite slice_length in E by lia. simpl in E. lia.
Qed.

(** The four columns of the chart are aligned with the series, and for a
    window of at least one day neither [new] nor [ma] holds a NaN, whatever
    the series holds (a NaN count included). *)
Theorem derived_columns_aligned (ts : Series Timestamp) (w : nat) :
  (1 <= w)%nat ->
  let d := df_ts ts w in
  List.length (date d) = List.length ts
  /\ List.length (value d) = List.length ts
  /\ List.length (new d) = List.length ts
  /\ List.length (ma d) = List.length ts
  /\ Forall is_number (new d)
  /\ Forall (fun c => exists q, c = Some q) (ma d).
Proof.
  intros Hw d. unfold d, df_ts; cbn [date value new ma].
  rewrite fillna_no_nan.
  set (l := map (fun x : float => match x with Some z => z | None => 0 end)
                (diff (map snd ts))).
  assert (Hl : List.length l = List.length ts)
    by (unfold l; rewrite length_map, diff_length, length_map; reflexivity).
  assert (Hma : List.length (rolling_mean w 1 (map Some l)) = List.length ts)
    by (unfold rolling_mean; rewrite length_map, length_seq, length_map; exact Hl).
  rewrite Hma, !length_map, Hl.
  repeat split.
  - apply Forall_forall. intros c Hc. apply in_map_iff in Hc as (z & <- & _).
    exists z. reflexivity.
  - apply Forall_forall. intros c Hc.
    destruct (rolling_mean_cells w l c Hw Hc) as (lo & hi & -> & _).
    eexists; reflexivity.
Qed.

Lemma derived_columns_aligned_witness :
  Forall is_number
    (new (df_ts [(Some (mkDate 2021 1 1), Some 5); (None, None);
                 (Some (mkDate 2021 1 3), Some 9)] 3))
  /\ List.length
       (ma (df_ts [(Some (mkDate 2021 1 1), Some 5); (None, None);
                   (Some (mkDate 2021 1 3), Some 9)] 3)) = 3%nat.
Proof.
  destruct (derived_columns_aligned
              [(Some (mkDate 2021 1 1), Some 5); (None, None);
               (Some (mkDate 2021 1 3), Some 9)] 3)
    as (_ & _ & _ & H4 & H5 & _); [lia|].
  split; [exact H5 | exact H4].
Defined.

(** Summing the daily deltas gives the cumulative series back: for a series
    of counts, the count of day i is the count of day 0 plus the deltas of
    the days 0 to i. *)
Theorem deltas_sum_to_cumulative (ts : list (Timestamp * Z)) (w i : nat) :
  (i < List.length ts)%nat ->
  let s := map snd ts in
  let d := df_ts (of_counts ts) w in
  nth i s 0 = nth 0 s 0 + zsum (dropna (firstn (S i) (new d))).
Proof.
  intros Hi s d. unfold d, df_ts; cbn [new].
  rewrite of_counts_values. fold s. rewrite new_of_counts.
  rewrite firstn_map, dropna_map_Some.
  assert (Hs : List.length s = List.length ts) by (unfold s; apply length_map).
  destruct s as [|x r]; [simpl in Hs; lia|].
  cbn [deltas firstn zsum fold_right].
  change (fold_right Z.add 0 (firstn i (deltas_from x r)))
    with (zsum (firstn i (deltas_from x r))).
  rewrite deltas_from_sum by (simpl in Hs; lia).
  cbn [nth]. lia.
Qed.

Lemma deltas_sum_to_cumulative_witness :
  let ts := [(Some (mkDate 2021 1 1), 10); (Some (mkDate 2021 1 2), 25);
             (Some (mkDate 2021 1 3), 27)] in
  27 = 10 + zsum (dropna (firstn 3 (new (df_ts (of_counts ts) 7)))).
Proof.
  intros ts. apply (deltas_sum_to_cumulative ts 7 2). simpl. lia.
Defined.

Lemma deltas_nonnegative (l : list Z) : forall x,
  nondecreasing_from x l -> Forall (fun z => 0 <= z) (deltas_from x l).
Proof.
  induction l as [|y l IH]; intros x H; [constructor|].
  destruct H as [Hxy H]. constructor; [lia | apply IH, H].
Qed.

(** Bounds pass from the daily deltas to their moving average: over any
    series and any window of at least one day, if every delta is at least a
    then so is every moving average, and likewise for an upper bound. *)
Theorem moving_average_bounds (ts : Series Timestamp) (w : nat) (a b : Z) :
  (1 <= w)%nat ->
  let d := df_ts ts w in
  (Forall (at_least a) (new d) -> Forall (mean_at_least a) (ma d))
  /\ (Forall (at_most b) (new d) -> Forall (mean_at_most b) (ma d)).
Proof.
  intros Hw d. unfold d, df_ts; cbn [new ma]. rewrite fillna_no_nan.
  set (l := map (fun x : float => match x with Some z => z | None => 0 end)
                (diff (map snd ts))).
  split; intros H; apply Forall_forall; intros c Hc;
    destruct (rolling_mean_cells w l c Hw Hc) as (lo & hi & -> & Hne);
    eexists; (split; [reflexivity|]).
  - apply mean_of_lower; [exact Hne|].
    apply Forall_forall. intros z Hz. apply In_slice in Hz.
    rewrite Forall_forall in H.
    destruct (H (Some z) (in_map Some l z Hz)) as (z' & E & Hle).
    injection E as <-. exact Hle.
  - apply mean_of_upper; [exact Hne|].
    apply Forall_forall. intros z Hz. apply In_slice in Hz.
    rewrite Forall_forall in H.
    destruct (H (Some z) (in_map Some l z Hz)) as (z' & E & Hle).
    injection E as <-. exact Hle.
Qed.

Lemma moving_average_bounds_witness :
  Forall (mean_at_least 0)
    (ma (df_ts (of_counts [(Some (mkDate 2021 1 1), 10);
                           (Some (mkDate 2021 1 2), 12);
                           (Some (mkDate 2021 1 3), 17)]) 2)).
Proof.
  destruct (moving_average_bounds
              (of_counts [(Some (mkDate 2021 1 1), 10);
                          (Some (mkDate 2021 1 2), 12);
                          (Some (mkDate 2021 1 3), 17)]) 2 0 0) as [H _];
    [lia|].
  apply H.
  change (Forall (at_least 0) [Some 0; Some 2; Some 5]).
  repeat (apply Forall_cons; [eexists; split; [reflexivity | lia]|]).
  apply Forall_nil.
Defined.

(** When no count of the series is smaller than the count before it, no
    daily delta and no moving average is negative. *)
Theorem monotone_series_nonnegative (ts : list (Timestamp * Z)) (w : nat) :
  (1 <= w)%nat -> nondecreasing (map snd ts) ->
  let d := df_ts (of_counts ts) w in
  Forall (at_least 0) (new d) /\ Forall (mean_at_least 0) (ma d).
Proof.
  intros Hw Hmono d.
  assert (Hnew : new d = map Some (deltas (map snd ts))).
  { unfold d, df_ts; cbn [new]. rewrite of_counts_values. apply new_of_counts. }
  assert (Hpos : Forall (fun z => 0 <= z) (deltas (map snd ts))).
  { destruct (map snd ts) as [|x r]; [constructor|].
    constructor; [lia | apply deltas_nonnegative, Hmono]. }
  assert (H0 : Forall (at_least 0) (new d)).
  { rewrite Hnew. apply Forall_forall. intros c Hc.
    apply in_map_iff in Hc as (z & <- & Hz).
    rewrite Forall_forall in Hpos. exists z. split; [reflexivity | apply Hpos, Hz]. }
  split; [exact H0|].
  assert (Hma : ma d = rolling_mean w 1 (map Some (deltas (map snd ts)))).
  { unfold d, df_ts; cbn [ma]. rewrite of_counts_values, new_of_counts. reflexivity. }
  rewrite Hma. apply Forall_forall. intros c Hc.
  destruct (rolling_mean_cells w _ c Hw Hc) as (lo & hi & -> & Hne).
  eexists. split; [reflexivity|].
  apply mean_of_lower; [exact Hne|].
  apply Forall_forall. intros z Hz. apply In_slice in Hz.
  rewrite Forall_forall in Hpos. apply Hpos, Hz.
Qed.

Lemma monotone_series_nonnegative_witness :
  Forall (at_least 0)
    (new (df_ts (of_counts [(Some (mkDate 2021 1 1), 10);
                            (Some (mkDate 2021 1 2), 10);
                            (Some (mkDate 2021 1 3), 17)]) 7)).
Proof.
  destruct (monotone_series_nonnegative
              [(Some (mkDate 2021 1 1), 10); (Some (mkDate 2021 1 2), 10);
               (Some (mkDate 2021 1 3), 17)] 7) as [H _].
  - lia.
  - simpl. lia.
  - exact H.
Defined.

(** ** The country selector *)

Lemma names_Ok (vals : list Value) (l : list string) :
  names vals = Ok l -> vals = map Str l.
Proof.
  revert l; induction vals as [|v vals IH]; intros l H; simpl in H.
  - injection H as <-. reflexivity.
  - destruct v as [|z|s|kv]; try discriminate.
    destruct (names vals) as [l'|]; [|discriminate].
    cbn [rbind] in H. injection H as <-.
    simpl. f_equal. apply IH. reflexivity.
Qed.

Lemma insert_name_perm (x : string) (l : list string) :
  Permutation (insert_name x l) (x :: l).
Proof.
  induction l as [|y l IH]; simpl; [reflexivity|].
  destruct (String.leb x y); [reflexivity|].
  rewrite IH. apply perm_swap.
Qed.

Lemma sorted_names_perm (l : list string) : Permutation (sorted_names l) l.
Proof.
  induction l as [|x l IH]; simpl; [reflexivity|].
  rewrite insert_name_perm, IH. reflexivity.
Qed.

Lemma insert_name_sorted (x : string) (l : list string) :
  Sorted name_le l -> Sorted name_le (insert_name x l).
Proof.
  induction l as [|y l IH]; intros Hs; simpl.
  - repeat constructor.
  - destruct (String.leb x y) eqn:Hxy.
    + constructor; [exact Hs | constructor; exact Hxy].
    + apply Sorted_inv in Hs as [Hl Hhd].
      constructor; [apply IH, Hl|].
      assert (Hyx : name_le y x).
      { destruct (String.leb_total x y) as [H|H]; [congruence | exact H]. }
      destruct l as [|z l]; simpl.
      * constructor; exact Hyx.
      * destruct (String.leb x z); constructor; [exact Hyx|].
        inversion Hhd; assumption.
Qed.

Lemma sorted_names_sorted (l : list string) : Sorted name_le (sorted_names l).
Proof.
  induction l as [|x l IH]; simpl; [constructor | apply insert_name_sorted, IH].
Qed.

Lemma country_column_names (df : DataFrame) (l : list string) :
  country_list df = Ok l ->
  has_column df "country" = true
  /\ exists ns,
       dropna_values (map (fun r => cell r "country") (records df)) = map Str ns
       /\ l = sorted_names (unique ns).
Proof.
  unfold country_list, column. intros H.
  destruct (has_column df "country"); [|discriminate]. cbn [rbind] in H.
  destruct (names _) as [ns|] eqn:Hn; [|discriminate]. cbn [rbind] in H.
  injection H as <-. split; [reflexivity|].
  exists ns. split; [apply names_Ok, Hn | reflexivity].
Qed.

(** The countries of the selector are the countries of the table, each
    once, in ascending order, and each of them has a row: picking a country
    of the list never fails with IndexError, and the row found carries that
    country. *)
Theorem country_list_sound (df : DataFrame) (l : list string) :
  country_list df = Ok l ->
  Sorted name_le l
  /\ NoDup l
  /\ (forall c, In c l <->
                exists r, In r (records df) /\ cell r "country" = Str c)
  /\ (forall c, In c l ->
                exists row, select_row df c = Ok row
                            /\ In row (records df)
                            /\ cell row "country" = Str c).
Proof.
  intros H. destruct (country_column_names df l H) as (Hcol & ns & Hns & ->).
  assert (Hmem : forall c, In c (sorted_names (unique ns)) <->
                 exists r, In r (records df) /\ cell r "country" = Str c).
  { intros c. split.
    - intros Hc. apply (Permutation_in _ (sorted_names_perm _)) in Hc.
      apply (proj1 (unique_In c ns)) in Hc.
      assert (Hin : In (Str c)
                      (dropna_values (map (fun r => cell r "country") (records df))))
        by (rewrite Hns; apply in_map, Hc).
      unfold dropna_values in Hin. apply filter_In in Hin as [Hin _].
      apply in_map_iff in Hin as (r & Hr & Hin). exists r. split; assumption.
    - intros (r & Hr & Hc).
      apply (Permutation_in _ (Permutation_sym (sorted_names_perm _))).
      apply (proj2 (unique_In c ns)).
      assert (Hin : In (Str c)
                      (dropna_values (map (fun r => cell r "country") (records df)))).
      { unfold dropna_values. apply filter_In. split; [|reflexivity].
        apply in_map_iff. exists r. split; assumption. }
      rewrite Hns in Hin. apply in_map_iff in Hin as (c' & E & Hin).
      injection E as ->. exact Hin. }
  split; [apply sorted_names_sorted|]. split.
  { apply (Permutation_NoDup (Permutation_sym (sorted_names_perm _))).
    apply unique_NoDup. }
  split; [exact Hmem|].
  intros c Hc. apply Hmem in Hc as (r & Hr & Hrc).
  unfold select_row, column. rewrite Hcol. cbn [rbind].
  destruct (filter (is_country c) (records df)) as [|row rows] eqn:Hf.
  - exfalso. assert (Hin : In r (filter (is_country c) (records df))).
    { apply filter_In. split; [exact Hr|].
      unfold is_country. rewrite Hrc. apply String.eqb_refl. }
    rewrite Hf in Hin. contradiction.
  - exists row. split; [reflexivity|].
    assert (Hin : In row (filter (is_country c) (records df)))
      by (rewrite Hf; left; reflexivity).
    apply filter_In in Hin as [Hin Hic]. split; [exact Hin|].
    unfold is_country in Hic.
    destruct (cell row "country") as [|z|s|kv]; try discriminate.
    apply String.eqb_eq in Hic. subst s. reflexivity.
Qed.

Lemma country_list_sound_witness :
  country_list table_large = Ok ["X"; "Y"]
  /\ exists row, select_row table_large "Y" = Ok row
                 /\ In row (records table_large)
                 /\ cell row "country" = Str "Y".
Proof.
  split; [reflexivity|].
  destruct (country_list_sound table_large ["X"; "Y"] eq_refl)
    as (_ & _ & _ & H).
  apply H. right; left; reflexivity.
Defined.

(** ** The KPIs *)

(** The KPI row is shown whole or not at all: either the totals raise, the
    exception leaves the section and no metric was shown, or the four
    metrics are shown in their fixed order. *)
Theorem kpi_all_or_nothing (df : DataFrame) (country : string)
  (page : list Widget) :
  (exists e, totals df country = Raise e
             /\ kpi_section df country page = (Raise e, page))
  \/ (exists t, totals df country = Ok t
                /\ kpi_section df country page = (Ok tt, page ++ kpi_row t)).
Proof.
  unfold kpi_section, bind, lift, show.
  destruct (totals df country) as [t|e].
  - right. exists t. split; [reflexivity|].
    unfold kpi_row. rewrite <- !app_assoc. reflexivity.
  - left. exists e. split; reflexivity.
Qed.

(** When several rows carry the selected country, the KPIs are those of the
    first such row. *)
Theorem select_row_first_match (df : DataFrame) (country : string)
  (before after : list (list (string * Value))) (r : list (string * Value)) :
  has_column df "country" = true ->
  records df = before ++ r :: after ->
  Forall (fun x => country_of x <> Str country) before ->
  country_of r = Str country ->
  select_row df country = Ok r.
Proof.
  intros Hcol Hrec Hbefore Hr. unfold select_row, column.
  rewrite Hcol. cbn [rbind]. rewrite Hrec, filter_app.
  assert (E : filter (is_country country) before = []).
  { clear Hrec. induction Hbefore as [|x l Hx Hl IH]; [reflexivity|].
    cbn [filter]. rewrite IH. unfold is_country. unfold country_of in Hx.
    destruct (cell x "country") as [|z|s|kv]; try reflexivity.
    destruct (String.eqb_spec s country) as [->|Hne]; [|reflexivity].
    exfalso. apply Hx. reflexivity. }
  rewrite E. simpl. unfold is_country. unfold country_of in Hr.
  rewrite Hr, String.eqb_refl. reflexivity.
Qed.

Lemma select_row_first_match_witness :
  select_row
    (DataFrame_of_json
       [[("country", Str "A"); ("cases", Num 1)];
        [("country", Str "B"); ("cases", Num 2)];
        [("country", Str "B"); ("cases", Num 3)]]) "B"
  = Ok [("country", Str "B"); ("cases", Num 2)].
Proof.
  apply (select_row_first_match _ "B"
           [[("country", Str "A"); ("cases", Num 1)]]
           [[("country", Str "B"); ("cases", Num 3)]]).
  - reflexivity.
  - reflexivity.
  - constructor; [discriminate | constructor].
  - reflexivity.
Defined.

Lemma filter_all {A : Type} (f : A -> bool) (l : list A) :
  (forall x, In x l -> f x = true) -> filter f l = l.
Proof.
  induction l as [|x l IH]; intros H; [reflexivity|].
  simpl. rewrite (H x (or_introl eq_refl)). f_equal.
  apply IH. intros y Hy. apply H. right. exact Hy.
Qed.

Lemma filter_none {A : Type} (f : A -> bool) (l : list A) :
  (forall x, In x l -> f x = false) -> filter f l = [].
Proof.
  induction l as [|x l IH]; intros H; [reflexivity|].
  simpl. rewrite (H x (or_introl eq_refl)).
  apply IH. intros y Hy. apply H. right. exact Hy.
Qed.

Lemma unique_NoDup_id (l : list string) : NoDup l -> unique l = l.
Proof.
  induction 1 as [|x l Hx Hl IH]; [reflexivity|].
  simpl. rewrite IH. f_equal. apply filter_all.
  intros y Hy. destruct (String.eqb_spec x y) as [->|]; [contradiction | reflexivity].
Qed.

Lemma zsum_perm (l l' : list Z) : Permutation l l' -> zsum l = zsum l'.
Proof.
  unfold zsum. induction 1; simpl; lia.
Qed.

Lemma is_country_spec (c : string) (r : list (string * Value)) :
  is_country c r = true <-> country_of r = Str c.
Proof.
  unfold is_country, country_of.
  destruct (cell r "country") as [|z|s|kv]; split; intros H; try discriminate.
  - apply String.eqb_eq in H. subst s. reflexivity.
  - injection H as ->. apply String.eqb_refl.
Qed.

(** With distinct countries, the rows of a country are its one row. *)
Lemma filter_unique_row (rs : list (list (string * Value)))
  (r : list (string * Value)) (c : string) :
  NoDup (map country_of rs) -> In r rs -> country_of r = Str c ->
  filter (is_country c) rs = [r].
Proof.
  induction rs as [|x rs IH]; intros Hnd Hin Hc; [contradiction|].
  cbn [map] in Hnd. apply NoDup_cons_iff in Hnd as [Hx Hnd].
  cbn [filter]. destruct Hin as [->|Hin].
  - rewrite (proj2 (is_country_spec c r) Hc). f_equal.
    apply filter_none. intros y Hy.
    destruct (is_country c y) eqn:E; [|reflexivity].
    apply is_country_spec in E. exfalso. apply Hx.
    rewrite Hc, <- E. apply in_map, Hy.
  - destruct (is_country c x) eqn:E.
    + apply is_country_spec in E. exfalso. apply Hx.
      rewrite E, <- Hc. apply in_map, Hin.
    + apply IH; assumption.
Qed.

Lemma int_Num (v : Value) (z : Z) : int v = Ok z -> v = Num z.
Proof. destruct v; simpl; intros H; try discriminate. injection H as ->. reflexivity. Qed.

(** The cells behind the KPIs of a country. *)
Lemma totals_country_cells (df : DataFrame) (c : string)
  (r : list (string * Value)) (t : Totals) :
  String.eqb c "Global" = false ->
  select_row df c = Ok r -> totals df c = Ok t ->
  cell r "cases" = Num (total_cases t)
  /\ cell r "deaths" = Num (total_deaths t)
  /\ cell r "recovered" = Num (total_recovered t).
Proof.
  intros Hc Hr Ht. unfold totals in Ht. rewrite Hc, Hr in Ht. cbn [rbind] in Ht.
  unfold row_item in Ht.
  destruct (has_column df "cases"); [|discriminate]. cbn [rbind] in Ht.
  destruct (int (cell r "cases")) as [tc|] eqn:E1; [|discriminate]. cbn [rbind] in Ht.
  destruct (has_column df "deaths"); [|discriminate]. cbn [rbind] in Ht.
  destruct (int (cell r "deaths")) as [td|] eqn:E2; [|discriminate]. cbn [rbind] in Ht.
  destruct (has_column df "recovered"); [|discriminate]. cbn [rbind] in Ht.
  destruct (int (cell r "recovered")) as [tr|] eqn:E3; [|discriminate]. cbn [rbind] in Ht.
  destruct (if has_column df "tests" && negb (isna (cell r "tests"))
            then rbind (int (cell r "tests")) (fun t0 => Ok (Some t0))
            else Ok None) as [tt'|]; [|discriminate].
  cbn [rbind] in Ht. injection Ht as <-.
  cbn [total_cases total_deaths total_recovered].
  repeat split; apply int_Num; assumption.
Qed.

(** The column sums behind the global KPIs. *)
Lemma totals_global_sums (df : DataFrame) (t : Totals) :
  totals df "Global" = Ok t ->
  series_sum (map (fun r => cell r "cases") (records df)) = Ok (total_cases t)
  /\ series_sum (map (fun r => cell r "deaths") (records df)) = Ok (total_deaths t)
  /\ series_sum (map (fun r => cell r "recovered") (records df))
     = Ok (total_recovered t).
Proof.
  intros Ht. unfold totals in Ht. cbn [String.eqb Ascii.eqb Bool.eqb] in Ht.
  unfold column_total, column in Ht.
  destruct (has_column df "cases"); [|discriminate]. cbn [rbind] in Ht.
  destruct (series_sum (map (fun r => cell r "cases") (records df)))
    as [tc|]; [|discriminate]. cbn [rbind] in Ht.
  destruct (has_column df "deaths"); [|discriminate]. cbn [rbind] in Ht.
  destruct (series_sum (map (fun r => cell r "deaths") (records df)))
    as [td|]; [|discriminate]. cbn [rbind] in Ht.
  destruct (has_column df "recovered"); [|discriminate]. cbn [rbind] in Ht.
  destruct (series_sum (map (fun r => cell r "recovered") (records df)))
    as [tr|]; [|discriminate]. cbn [rbind] in Ht.
  destruct (if has_column df "tests" then _ else _) as [tt'|]; [|discriminate].
  cbn [rbind] in Ht. injection Ht as <-.
  cbn [total_cases total_deaths total_recovered]. repeat split.
Qed.

Lemma series_sum_numbers (col : string) (rs : list (list (string * Value)))
  (zs : list Z) :
  Forall2 (fun r z => cell r col = Num z) rs zs ->
  series_sum (map (fun r => cell r col) rs) = Ok (zsum zs).
Proof.
  induction 1 as [|r z rs zs Hr Hrs IH]; [reflexivity|].
  cbn [map series_sum]. rewrite Hr, IH. reflexivity.
Qed.

Lemma Forall2_by_name (P : list (string * Value) -> Z -> Prop) (g : string -> Z)
  (rs : list (list (string * Value))) : forall ns,
  map country_of rs = map Str ns ->
  (forall r c, In r rs -> country_of r = Str c -> P r (g c)) ->
  Forall2 P rs (map g ns).
Proof.
  induction rs as [|r rs IH]; intros [|n ns] E H; try discriminate;
    [constructor|].
  cbn [map] in E. injection E as Er Ers. constructor.
  - apply H; [left; reflexivity | exact Er].
  - apply IH; [exact Ers|]. intros r' c Hin. apply H. right. exact Hin.
Qed.

(** The global KPIs are the sums of the countries' KPIs: when every row
    names a country, no two rows name the same one, no country is called
    Global and the KPIs of every country of the selector can be shown, the
    global cases, deaths and recovered are the sums over the selector's
    countries of what their KPIs show. *)
Theorem global_kpis_sum_countries (df : DataFrame) (l : list string)
  (t : Totals) :
  country_list df = Ok l ->
  ~ In "Global" l ->
  Forall (fun r => exists c, country_of r = Str c) (records df) ->
  NoDup (map country_of (records df)) ->
  (forall c, In c l -> exists tc, totals df c = Ok tc) ->
  totals df "Global" = Ok t ->
  total_cases t = zsum (map (country_total total_cases df) l)
  /\ total_deaths t = zsum (map (country_total total_deaths df) l)
  /\ total_recovered t = zsum (map (country_total total_recovered df) l).
Proof.
  intros Hl Hglobal Hnamed Hnd Hshown Ht.
  destruct (country_column_names df l Hl) as (Hcol & ns & Hns & ->).
  assert (Hall : map country_of (records df) = map Str ns).
  { rewrite <- Hns. unfold dropna_values. symmetry. apply filter_all.
    intros v Hv. apply in_map_iff in Hv as (r & <- & Hr).
    rewrite Forall_forall in Hnamed. destruct (Hnamed r Hr) as [c Hc].
    rewrite Hc. reflexivity. }
  assert (Hnd' : NoDup ns).
  { rewrite Hall in Hnd. exact (NoDup_map_inv Str ns Hnd). }
  rewrite (unique_NoDup_id ns Hnd') in *.
  assert (Hperm := sorted_names_perm ns).
  assert (Hcells : forall r c, In r (records df) -> country_of r = Str c ->
            cell r "cases" = Num (country_total total_cases df c)
            /\ cell r "deaths" = Num (country_total total_deaths df c)
            /\ cell r "recovered" = Num (country_total total_recovered df c)).
  { intros r c Hr Hc.
    assert (Hin : In c (sorted_names ns)).
    { apply (Permutation_in _ (Permutation_sym Hperm)).
      assert (H : In (Str c) (map Str ns))
        by (rewrite <- Hall, <- Hc; apply in_map, Hr).
      apply in_map_iff in H as (c' & E & H). injection E as ->. exact H. }
    assert (Hcg : String.eqb c "Global" = false).
    { destruct (String.eqb_spec c "Global") as [->|]; [contradiction | reflexivity]. }
    destruct (Hshown c Hin) as [tc Htc].
    assert (Hsel : select_row df c = Ok r).
    { unfold select_row, column. rewrite Hcol. cbn [rbind].
      rewrite (filter_unique_row _ r c Hnd Hr Hc). reflexivity. }
    unfold country_total. rewrite Htc.
    exact (totals_country_cells df c r tc Hcg Hsel Htc). }
  destruct (totals_global_sums df t Ht) as (G1 & G2 & G3).
  rewrite (zsum_perm _ _ (Permutation_map (country_total total_cases df) Hperm)).
  rewrite (zsum_perm _ _ (Permutation_map (country_total total_deaths df) Hperm)).
  rewrite (zsum_perm _ _ (Permutation_map (country_total total_recovered df) Hperm)).
  rewrite (series_sum_numbers "cases" (records df)
             (map (country_total total_cases df) ns)) in G1.
  2:{ apply Forall2_by_name; [exact Hall|]. intros r c Hr Hc.
      apply (Hcells r c Hr Hc). }
  rewrite (series_sum_numbers "deaths" (records df)
             (map (country_total total_deaths df) ns)) in G2.
  2:{ apply Forall2_by_name; [exact Hall|]. intros r c Hr Hc.
      apply (Hcells r c Hr Hc). }
  rewrite (series_sum_numbers "recovered" (records df)
             (map (country_total total_recovered df) ns)) in G3.
  2:{ apply Forall2_by_name; [exact Hall|]. intros r c Hr Hc.
      apply (Hcells r c Hr Hc). }
  injection G1 as G1. injection G2 as G2. injection G3 as G3.
  repeat split; symmetry; assumption.
Qed.

Lemma global_kpis_sum_countries_witness :
  12346912 = zsum (map (country_total total_cases table_large) ["X"; "Y"]).
Proof.
  destruct (global_kpis_sum_countries table_large ["X"; "Y"]
              (mkTotals 12346912 1000 124455 (Some 1234567))) as (H & _).
  - reflexivity.
  - intros [H|[H|[]]]; discriminate.
  - repeat constructor; eexists; reflexivity.
  - repeat constructor; simpl; intuition discriminate.
  - intros c [<-|[<-|[]]]; eexists; reflexivity.
  - reflexivity.
  - exact H.
Defined.

(** ** Thousands separators *)

Lemma commas_positions (ds : list ascii) : forall (k i : nat),
  (k <= 3)%nat ->
  forallb (fun c => negb (Ascii.eqb c ",")) ds = true ->
  (i < List.length (commas k ds))%nat ->
  (nth i (commas k ds) "0"%char = ","%char <-> ((i + k) mod 4 = 3)%nat).
Proof.
  induction ds as [|d ds IH]; intros k i Hk Hds Hi; [simpl in Hi; lia|].
  simpl in Hds. apply andb_prop in Hds as [Hd Hds].
  assert (Hdc : d <> ","%char).
  { intros ->. rewrite Ascii.eqb_refl in Hd. discriminate. }
  cbn [commas] in *. destruct (Nat.eqb_spec k 3) as [->|Hk3].
  - destruct i as [|[|j]]; cbn [nth].
    + split; [reflexivity | reflexivity].
    + split; [intros E; contradiction | intros E; simpl in E; discriminate].
    + cbn [List.length] in Hi.
      rewrite (IH 1%nat j) by (try exact Hds; lia).
      replace (S (S j) + 3)%nat with ((j + 1) + 1 * 4)%nat by lia.
      rewrite Nat.Div0.mod_add. reflexivity.
  - destruct i as [|j]; cbn [nth].
    + split; [intros E; contradiction|].
      cbn [Nat.add]. intros E. rewrite Nat.mod_small in E by lia. lia.
    + cbn [List.length] in Hi.
      rewrite (IH (S k) j) by (try exact Hds; lia).
      replace (S j + k)%nat with (j + S k)%nat by lia. reflexivity.
Qed.

Lemma commas_last (ds : list ascii) : forall (k : nat),
  forallb (fun c => negb (Ascii.eqb c ",")) ds = true ->
  last (commas k ds) "0"%char <> ","%char.
Proof.
  induction ds as [|d ds IH]; intros k Hds; [discriminate|].
  simpl in Hds. apply andb_prop in Hds as [Hd Hds].
  assert (Hdc : d <> ","%char).
  { intros ->. rewrite Ascii.eqb_refl in Hd. discriminate. }
  assert (Hnext : forall k', last (d :: commas k' ds) "0"%char <> ","%char).
  { intros k'. cbn [last]. destruct (commas k' ds) as [|c cs] eqn:E; [exact Hdc|].
    rewrite <- E. apply IH, Hds. }
  cbn [commas]. destruct (k =? 3)%nat; [|apply Hnext].
  change (last ("," %char :: d :: commas 1 ds) "0"%char)
    with (last (d :: commas 1 ds) "0"%char).
  apply Hnext.
Qed.

(** A count is written with a comma after every third digit from the right
    and nowhere else: reading the text of a non-negative count from its
    last character, the characters at the positions 3, 7, 11, ... are the
    commas, and the text does not begin with one. *)
Theorem thousands_separators (n : Z) :
  0 <= n ->
  let out := rev (list_ascii_of_string (format_comma n)) in
  (forall i, (i < List.length out)%nat ->
             (nth i out "0"%char = ","%char <-> (i mod 4 = 3)%nat))
  /\ last out "0"%char <> ","%char.
Proof.
  intros Hn out.
  assert (E : out = commas 0 (rev (digits n))).
  { unfold out, format_comma.
    destruct (Z.ltb_spec n 0) as [H|_]; [lia|].
    cbn [String.append].
    rewrite list_ascii_of_string_of_list_ascii. apply rev_involutive. }
  assert (D : forallb (fun c => negb (Ascii.eqb c ",")) (rev (digits n)) = true).
  { rewrite forallb_forall. intros c Hc. apply in_rev in Hc.
    pose proof (digits_no_comma n) as D. rewrite forallb_forall in D.
    apply D, Hc. }
  rewrite E. split.
  - intros i Hi. rewrite (commas_positions _ 0 i) by (try exact D; try exact Hi; lia).
    rewrite Nat.add_0_r. reflexivity.
  - apply commas_last, D.
Qed.

Lemma thousands_separators_witness :
  nth 3 (rev (list_ascii_of_string (format_comma 1234567))) "0"%char = ","%char
  /\ nth 7 (rev (list_ascii_of_string (format_comma 1234567))) "0"%char = ","%char.
Proof.
  destruct (thousands_separators 1234567) as [H _]; [lia|].
  split; [apply (H 3%nat) | apply (H 7%nat)]; try reflexivity; simpl; lia.
Defined.

(** ** The iso2 column *)

Lemma set_column_rows (df : DataFrame) (c : string)
  (f : list (string * Value) -> Value) :
  Forall2 (fun r0 r => r = (c, f r0) :: r0)
          (records df) (records (set_column df c (map f (records df)))).
Proof.
  unfold set_column; cbn [records].
  induction (records df) as [|r rs IH]; simpl; constructor;
    [reflexivity | exact IH].
Qed.

(** The map section adds the iso2 column and touches nothing else: every
    other cell of every row is kept, and the iso2 of a row is the iso2 entry
    of its countryInfo (missing when the row has none) provided the very
    first row of the table has a countryInfo dict; when it has not, every
    iso2 is missing, whatever the other rows hold. On a table built from the
    fetched JSON the step never raises. *)
Theorem iso2_column (df0 df : DataFrame) :
  set_iso2 df0 = Ok df ->
  columns df = (if has_column df0 "iso2" then columns df0
                else columns df0 ++ ["iso2"])
  /\ Forall2 (fun r0 r =>
                (forall c, c <> "iso2" -> cell r c = cell r0 c)
                /\ cell r "iso2"
                   = (if has_column df0 "countryInfo" && first_info_is_dict df0
                      then iso2_of (cell r0 "countryInfo") else NaN))
             (records df0) (records df)
  /\ (forall js, exists df', set_iso2 (DataFrame_of_json js) = Ok df').
Proof.
  intros H.
  assert (Hcell : forall v (r0 : list (string * Value)) c,
            c <> "iso2" -> cell (("iso2", v) :: r0) c = cell r0 c).
  { intros v r0 c Hc. unfold cell. cbn [get].
    destruct (String.eqb_spec c "iso2"); [contradiction | reflexivity]. }
  assert (Hshape : forall f,
            Forall2 (fun r0 r => (forall c, c <> "iso2" -> cell r c = cell r0 c)
                                 /\ cell r "iso2" = f r0)
                    (records df0)
                    (records (set_column df0 "iso2" (map f (records df0))))).
  { intros f. eapply Forall2_impl; [|apply set_column_rows].
    intros r0 r ->. split; [intros c Hc; apply Hcell, Hc | reflexivity]. }
  split; [|split].
  - unfold set_iso2 in H.
    destruct (has_column df0 "countryInfo").
    + destruct (records df0) as [|r0 rs]; [discriminate|].
      destruct (cell r0 "countryInfo"); injection H as <-; reflexivity.
    + injection H as <-. reflexivity.
  - unfold set_iso2, first_info_is_dict in *.
    destruct (has_column df0 "countryInfo"); cbn [andb].
    + destruct (records df0) as [|r0 rs] eqn:Hr; [discriminate|].
      rewrite <- Hr in *.
      destruct (cell r0 "countryInfo"); injection H as <-;
        first [ exact (Hshape (fun r => iso2_of (cell r "countryInfo")))
              | exact (Hshape (fun _ => NaN)) ].
    + injection H as <-. exact (Hshape (fun _ => NaN)).
  - intros js. unfold set_iso2.
    destruct (has_column (DataFrame_of_json js) "countryInfo") eqn:Hc;
      [|eexists; reflexivity].
    destruct js as [|j js]; [discriminate|].
    cbn [DataFrame_of_json records].
    destruct (cell j "countryInfo"); eexists; reflexivity.
Qed.

Lemma iso2_column_witness :
  map (fun r => cell r "iso2") (records table_exported)
  = [Str "KR"; NaN; NaN]
  /\ map (fun r => cell r "country") (records table_exported)
     = map (fun r => cell r "country") (records table_fetched).
Proof.
  destruct (iso2_column table_fetched table_exported eq_refl) as (_ & H & _).
  split; [reflexivity|].
  assert (G : forall l0 l,
            Forall2 (fun r0 r : list (string * Value) =>
                       (forall c, c <> "iso2" -> cell r c = cell r0 c)
                       /\ cell r "iso2"
                          = (if has_column table_fetched "countryInfo"
                                && first_info_is_dict table_fetched
                             then iso2_of (cell r0 "countryInfo") else NaN))
                    l0 l ->
            map (fun r => cell r "country") l = map (fun r => cell r "country") l0).
  { induction 1 as [|r0 r l0 l [Hr _] _ IH]; [reflexivity|].
    simpl. rewrite IH, (Hr "country") by discriminate. reflexivity. }
  exact (G _ _ H).
Defined.

(** ** The historical data *)

Lemma get_In_keys {V : Type} (k : string) (d : list (string * V)) :
  In k (map fst d) -> exists v, get k d = Some v.
Proof.
  induction d as [|[k' v] d IH]; simpl; [tauto|].
  destruct (String.eqb_spec k k') as [->|Hne].
  - intros _. eexists; reflexivity.
  - intros [H|H]; [congruence | exact (IH H)].
Qed.

(** A failed fetch of the historical data is shown as the error of the
    section and leaves an empty series: the section shows the error and the
    no-data notice, draws nothing and ends normally. *)
Theorem historical_fetch_failure
  (sd : Series Z -> result Statsmodels.DecomposeResult)
  (country metric : string) (w : nat) (page : list Widget) (e : exn) :
  (forall global, String.eqb country "Global" = false ->
     time_series_section sd country metric w global (Raise e) page
     = (Ok tt,
        page ++ [st_error ("Failed to load historical data for " ++ country) e;
                 st_info "No time series data available for the selected options."]))
  /\ (forall one,
        time_series_section sd "Global" metric w (Raise e) one page
        = (Ok tt,
           page ++ [st_error "Failed to load global historical data" e;
                    st_info "No time series data available for the selected options."])).
Proof.
  split.
  - intros global Hc.
    unfold time_series_section, country_ts, bind, try_except, lift, show, ret.
    rewrite Hc. cbn [charts]. unfold show. rewrite <- app_assoc. reflexivity.
  - intros one.
    unfold time_series_section, global_ts, bind, try_except, lift, show, ret.
    cbn [String.eqb Ascii.eqb Bool.eqb charts]. unfold show.
    rewrite <- app_assoc. reflexivity.
Qed.

Lemma historical_fetch_failure_witness :
  time_series_section statsmodels_call "Italy" "cases" 7 (Ok [])
    (Raise (LibraryError "404")) []
  = (Ok tt,
     [st_error "Failed to load historical data for Italy" (LibraryError "404");
      st_info "No time series data available for the selected options."]).
Proof.
  destruct (historical_fetch_failure statsmodels_call "Italy" "cases" 7 []
              (LibraryError "404")) as [H _].
  apply (H (Ok [])). reflexivity.
Defined.

Lemma get_unique_entry {V : Type} (d : list (string * V)) (k : string) (v : V) :
  NoDup (map fst d) -> In (k, v) d -> get k d = Some v.
Proof.
  induction d as [|[k' v'] d IH]; intros Hnd Hin; [contradiction|].
  cbn [map fst] in Hnd. apply NoDup_cons_iff in Hnd as [Hk Hnd].
  cbn [get]. destruct Hin as [E|Hin].
  - injection E as -> ->. rewrite String.eqb_refl. reflexivity.
  - destruct (String.eqb_spec k k') as [->|Hne].
    + exfalso. apply Hk. apply (in_map fst) in Hin. exact Hin.
    + apply IH; assumption.
Qed.

(** The global sum over one country is the series of that country. *)
Lemma global_sum_single (ms : list (string * Z)) :
  NoDup (map fst ms) -> global_sum [Series_of_dict ms] = Series_of_dict ms.
Proof.
  intros Hnd. unfold global_sum, sum_axis1, fillna_frame, concat_axis1.
  rewrite !map_map. cbn [flat_map fst snd map fillna].
  rewrite app_nil_r.
  assert (Hk : map fst (Series_of_dict ms) = map fst ms)
    by (unfold Series_of_dict; rewrite map_map; reflexivity).
  rewrite Hk, (unique_NoDup_id _ Hnd). unfold Series_of_dict at 2.
  rewrite map_map. apply map_ext_in. intros [k v] Hin. cbn [fst snd].
  unfold loc.
  change (map (fun p : string * Z => (fst p, Some (snd p))) ms)
    with (Series_of_dict ms).
  rewrite !get_Series_of_dict, (get_unique_entry ms k v Hnd Hin).
  simpl. rewrite Z.add_0_r. reflexivity.
Qed.

(** The global view of a world of one country draws the data of that
    country: when its timeline holds the metric under distinct date keys
    that convert, the global path and the country path build the same
    series, and each section is the charts of that series. The two sections
    are not equal, as the title of the chart names what was selected; they
    show the same widgets once the titles are set aside. *)
Theorem global_of_one_country
  (sd : Series Z -> result Statsmodels.DecomposeResult)
  (country metric : string) (w : nat) (page : list Widget) (c : Hist)
  (ts : Series Timestamp) (global : result (list Hist)) (one : result Hist) :
  String.eqb country "Global" = false ->
  metric_series metric c <> [] ->
  NoDup (map fst (metric_series metric c)) ->
  index_by_date (Series_of_dict (metric_series metric c)) = Ok ts ->
  global_ts metric (Ok [c]) page = (Ok ts, page)
  /\ country_ts country metric (Ok c) page = (Ok ts, page)
  /\ time_series_section sd "Global" metric w (Ok [c]) one page
     = charts sd "Global" metric ts w page
  /\ time_series_section sd country metric w global (Ok c) page
     = charts sd country metric ts w page
  /\ map without_title
       (snd (time_series_section sd "Global" metric w (Ok [c]) one page))
     = map without_title
         (snd (time_series_section sd country metric w global (Ok c) page)).
Proof.
  intros Hc Hne Hnd Hts.
  assert (G : global_ts metric (Ok [c]) page = (Ok ts, page)).
  { unfold global_ts, bind, try_except, lift.
    assert (E : df_hist_list metric [c] = [Series_of_dict (metric_series metric c)]).
    { unfold df_hist_list, metric_series in *. cbn [flat_map].
      rewrite app_nil_r.
      destruct (hist_timeline c) as [[|t0 tl]|];
        try (exfalso; apply Hne; reflexivity).
      destruct (get_or_empty metric (t0 :: tl)) as [|p ms];
        [exfalso; apply Hne; reflexivity | reflexivity]. }
    rewrite E, (global_sum_single _ Hnd), Hts. reflexivity. }
  assert (C : country_ts country metric (Ok c) page = (Ok ts, page)).
  { unfold country_ts, bind, try_except, lift.
    fold (metric_series metric c). rewrite Hts. reflexivity. }
  assert (SG : time_series_section sd "Global" metric w (Ok [c]) one page
               = charts sd "Global" metric ts w page).
  { unfold time_series_section, bind.
    cbn [String.eqb Ascii.eqb Bool.eqb]. rewrite G. reflexivity. }
  assert (SC : time_series_section sd country metric w global (Ok c) page
               = charts sd country metric ts w page).
  { unfold time_series_section, bind. rewrite Hc, C. reflexivity. }
  split; [exact G|]. split; [exact C|]. split; [exact SG|].
  split; [exact SC|].
  rewrite SG, SC. unfold charts.
  destruct ts as [|p ts']; [reflexivity|].
  unfold bind, show. rewrite !decomposition_run. cbn [snd].
  rewrite !map_app. reflexivity.
Qed.

Lemma global_of_one_country_witness :
  global_ts "cases"
    (Ok [mkHist (Some "B") (Some [("cases", [("1/2/21", 8); ("1/1/21", 5)])])])
    []
  = (Ok [(Some (mkDate 2021 1 1), Some 5); (Some (mkDate 2021 1 2), Some 8)], [])
  /\ map without_title
       (snd (time_series_section statsmodels_call "Global" "cases" 7
               (Ok [mkHist (Some "B")
                      (Some [("cases", [("1/2/21", 8); ("1/1/21", 5)])])])
               (Raise IndexError) []))
     = map without_title
         (snd (time_series_section statsmodels_call "B" "cases" 7
                 (Raise IndexError)
                 (Ok (mkHist (Some "B")
                        (Some [("cases", [("1/2/21", 8); ("1/1/21", 5)])])))
                 [])).
Proof.
  destruct (global_of_one_country statsmodels_call "B" "cases" 7 []
              (mkHist (Some "B") (Some [("cases", [("1/2/21", 8); ("1/1/21", 5)])]))
              [(Some (mkDate 2021 1 1), Some 5); (Some (mkDate 2021 1 2), Some 8)]
              (Raise IndexError) (Raise IndexError)) as (H1 & _ & _ & _ & H5).
  - reflexivity.
  - discriminate.
  - repeat constructor; simpl; intuition discriminate.
  - reflexivity.
  - split; [exact H1 | exact H5].
Defined.

Lemma get_absent {V : Type} (k : string) (d : list (string * V)) :
  ~ In k (map fst d) -> get k d = None.
Proof.
  induction d as [|[k' v] d IH]; simpl; [reflexivity|].
  intros H. destruct (String.eqb_spec k k') as [->|Hne]; [tauto|].
  apply IH. tauto.
Qed.

(** The value of the global sum on a key. *)
Lemma global_sum_loc (metric : string) (hist_json : list Hist) (k : string) :
  let g := global_sum (df_hist_list metric hist_json) in
  (In k (map fst g) ->
   loc k g = Some (zsum (map (count_on metric k) hist_json)))
  /\ (~ In k (map fst g) -> loc k g = None).
Proof.
  intros g. split.
  - intros Hin. unfold loc.
    assert (Hk := global_sum_keys (df_hist_list metric hist_json)).
    fold g in Hk. rewrite Hk in Hin.
    unfold g, global_sum, sum_axis1, fillna_frame, concat_axis1.
    rewrite !map_map. cbn [fst snd].
    rewrite (get_map_key
               (fun x => Some (zsum (dropna (fillna 0
                  (map (loc x) (df_hist_list metric hist_json)))))) k _ Hin).
    rewrite row_sum, filled_country. reflexivity.
  - intros Hout. unfold loc. rewrite (get_absent k g Hout). reflexivity.
Qed.

Lemma global_key_dec (metric : string) (hist_json : list Hist) (k : string) :
  In k (map fst (global_sum (df_hist_list metric hist_json)))
  \/ ~ In k (map fst (global_sum (df_hist_list metric hist_json))).
Proof.
  destruct (in_dec string_dec k
              (map fst (global_sum (df_hist_list metric hist_json))));
    [left | right]; assumption.
Qed.

Lemma global_keys (metric : string) (hist_json : list Hist) (k : string) :
  In k (map fst (global_sum (df_hist_list metric hist_json))) <->
  exists c, In c hist_json /\ In k (map fst (metric_series metric c)).
Proof. rewrite global_sum_keys, unique_In. apply df_hist_list_keys. Qed.

(** The global value on a date key depends neither on the order of the
    countries in the response nor on the countries that do not report that
    key. *)
Theorem global_sum_insensitive (metric k : string) :
  (forall hj hj', Permutation hj hj' ->
     loc k (global_sum (df_hist_list metric hj))
     = loc k (global_sum (df_hist_list metric hj')))
  /\ (forall hj1 c hj2, get k (metric_series metric c) = None ->
        loc k (global_sum (df_hist_list metric (hj1 ++ c :: hj2)))
        = loc k (global_sum (df_hist_list metric (hj1 ++ hj2)))).
Proof.
  assert (G : forall hj hj',
            (forall c, (In c hj /\ In k (map fst (metric_series metric c)))
                       -> exists c', In c' hj' /\ In k (map fst (metric_series metric c'))) ->
            (forall c, (In c hj' /\ In k (map fst (metric_series metric c)))
                       -> exists c', In c' hj /\ In k (map fst (metric_series metric c'))) ->
            zsum (map (count_on metric k) hj) = zsum (map (count_on metric k) hj') ->
            loc k (global_sum (df_hist_list metric hj))
            = loc k (global_sum (df_hist_list metric hj'))).
  { intros hj hj' H1 H2 Hs.
    destruct (global_sum_loc metric hj k) as [Hin Hout].
    destruct (global_sum_loc metric hj' k) as [Hin' Hout'].
    destruct (global_key_dec metric hj k) as [H|H].
    - rewrite (Hin H). apply global_keys in H as (c & Hc).
      destruct (H1 c Hc) as (c' & Hc').
      rewrite Hin' by (apply global_keys; exists c'; exact Hc').
      rewrite Hs. reflexivity.
    - rewrite (Hout H). symmetry. apply Hout'. intros H'.
      apply H. apply global_keys in H' as (c & Hc).
      apply global_keys. exact (H2 c Hc). }
  split.
  - intros hj hj' Hp. apply G.
    + intros c [Hc Hk]. exists c. split; [exact (Permutation_in _ Hp Hc) | exact Hk].
    + intros c [Hc Hk]. exists c.
      split; [exact (Permutation_in _ (Permutation_sym Hp) Hc) | exact Hk].
    + apply zsum_perm, Permutation_map, Hp.
  - intros hj1 c hj2 Hnone.
    assert (Hk : ~ In k (map fst (metric_series metric c))).
    { intros Hin. apply get_In_keys in Hin as [v Hv]. congruence. }
    apply G.
    + intros c' [Hc' Hk']. exists c'. split; [|exact Hk'].
      apply in_app_or in Hc' as [H|[H|H]];
        [apply in_or_app; left; exact H | subst c'; contradiction
        | apply in_or_app; right; exact H].
    + intros c' [Hc' Hk']. exists c'. split; [|exact Hk'].
      apply in_app_or in Hc' as [H|H];
        [apply in_or_app; left; exact H | apply in_or_app; right; right; exact H].
    + rewrite !map_app. cbn [map]. unfold count_on at 2. rewrite Hnone.
      assert (E : forall a b, zsum (a ++ b) = zsum a + zsum b).
      { intros a b. induction a as [|x a IHa]; simpl; [reflexivity|].
        change (fold_right Z.add 0 (a ++ b)) with (zsum (a ++ b)).
        change (fold_right Z.add 0 a) with (zsum a). rewrite IHa. lia. }
      rewrite !E. simpl. lia.
Qed.

Lemma global_sum_insensitive_witness :
  loc "1/2/21" (global_sum (df_hist_list "cases" (rev two_countries)))
  = Some 8
  /\ loc "1/2/21" (global_sum (df_hist_list "cases" (tl two_countries)))
     = Some 8.
Proof.
  destruct (global_sum_insensitive "cases" "1/2/21") as [H1 H2].
  split.
  - rewrite <- (H1 two_countries (rev two_countries) (Permutation_rev _)).
    reflexivity.
  - exact (eq_trans
             (eq_sym (H2 [] (mkHist (Some "A") (Some [("cases", [("1/1/21", 10)])]))
                        (tl two_countries) eq_refl))
             eq_refl).
Defined.

(** ** The series handed to the decomposition *)

Lemma same_label_eq (a b : option Z) : same_label a b = true <-> a = b.
Proof.
  destruct a as [x|], b as [y|]; simpl; split; intros H;
    try reflexivity; try discriminate.
  - apply Z.eqb_eq in H. subst; reflexivity.
  - injection H as ->. apply Z.eqb_refl.
Qed.

Lemma has_duplicates_NoDup (l : list (option Z)) :
  has_duplicates l = false -> NoDup l.
Proof.
  induction l as [|x l IH]; intros H; [constructor|].
  simpl in H. apply orb_false_elim in H as [Hx Hl].
  constructor; [|apply IH, Hl].
  intros Hin.
  assert (E : existsb (same_label x) l = true).
  { apply existsb_exists. exists x. split; [exact Hin|].
    apply same_label_eq. reflexivity. }
  congruence.
Qed.

Lemma dropna_In {A : Type} (l : list (option A)) (x : A) :
  In x (dropna l) <-> In (Some x) l.
Proof.
  unfold dropna. rewrite in_flat_map. split.
  - intros ([y|] & Hy & Hx); [|contradiction].
    destruct Hx as [->|[]]. exact Hy.
  - intros H. exists (Some x). split; [exact H | left; reflexivity].
Qed.

Lemma dropna_NoDup {A : Type} (l : list (option A)) :
  NoDup l -> NoDup (dropna l).
Proof.
  induction 1 as [|x l Hx Hl IH]; [constructor|].
  destruct x as [a|]; simpl; [|exact IH].
  constructor; [|exact IH]. rewrite dropna_In. exact Hx.
Qed.

Lemma dropna_NoDup_length {A : Type} (l : list (option A)) :
  NoDup l -> (List.length l <= List.length (dropna l) + 1)%nat.
Proof.
  induction 1 as [|x l Hx Hl IH]; [simpl; lia|].
  destruct x as [a|]; simpl; [lia|].
  assert (E : List.length (dropna l) = List.length l).
  { clear IH Hl. induction l as [|y l IHl]; [reflexivity|].
    destruct y as [b|].
    - simpl. f_equal. apply IHl. intros H. apply Hx. right. exact H.
    - exfalso. apply Hx. left. reflexivity. }
  lia.
Qed.

Lemma zmin_zmax_bounds (o : Z) (os : list Z) (x : Z) :
  In x (o :: os) -> zmin o os <= x <= zmax o os.
Proof.
  unfold zmin, zmax. induction os as [|y os IH]; simpl.
  - intros [->|[]]. lia.
  - intros [->|[->|H]].
    + assert (In x (x :: os)) as H by (left; reflexivity).
      apply IH in H. lia.
    + lia.
    + assert (In x (o :: os)) as H' by (right; exact H).
      apply IH in H'. lia.
Qed.

Lemma loc_day_found (pts : Series Timestamp) (t : Date) (v : float) :
  NoDup (map (fun p => ordinal (fst p)) pts) ->
  In (Some t, v) pts -> loc_day (toordinal t) pts = v.
Proof.
  induction pts as [|[t' v'] pts IH]; intros Hnd Hin; [contradiction|].
  cbn [map fst] in Hnd. apply NoDup_cons_iff in Hnd as [Hx Hnd].
  cbn [loc_day]. destruct Hin as [E|Hin].
  - injection E as -> ->. rewrite (proj2 (same_label_eq _ _) eq_refl).
    reflexivity.
  - destruct (same_label (ordinal t') (Some (toordinal t))) eqn:E.
    + apply same_label_eq in E. exfalso. apply Hx. rewrite E.
      apply (in_map (fun p => ordinal (fst p))) in Hin. exact Hin.
    + apply IH; assumption.
Qed.

Lemma loc_day_In (pts : Series Timestamp) (o z : Z) :
  loc_day o pts = Some z ->
  exists t, toordinal t = o /\ In (Some t, Some z) pts.
Proof.
  induction pts as [|[t' v'] pts IH]; intros H; [discriminate|].
  cbn [loc_day] in H.
  destruct (same_label (ordinal t') (Some o)) eqn:E.
  - apply same_label_eq in E. destruct t' as [t|]; [|discriminate].
    simpl in E. injection E as E. subst v'.
    exists t. split; [exact E | left; reflexivity].
  - destruct (IH H) as (t & Ht & Hin). exists t. split; [exact Ht|].
    right. exact Hin.
Qed.

Lemma consecutive_seq (lo : Z) (n : nat) : forall start,
  consecutive (lo + Z.of_nat start)
    (map (fun k => lo + Z.of_nat k) (seq (S start) n)).
Proof.
  induction n as [|n IH]; intros start; [exact I|].
  cbn [seq map consecutive]. split; [lia | apply IH].
Qed.

(** A successful [asfreq_D], spelled out. *)
Lemma asfreq_D_Ok (pts : Series Timestamp) (s0 : Series Z) :
  asfreq_D pts = Ok s0 ->
  (pts = [] /\ s0 = [])
  \/ exists o os,
       dropna (map (fun p => ordinal (fst p)) pts) = o :: os
       /\ has_duplicates (map (fun p => ordinal (fst p)) pts) = false
       /\ s0 = map (fun k => (zmin o os + Z.of_nat k,
                              loc_day (zmin o os + Z.of_nat k) pts))
                   (seq 0 (Z.to_nat (zmax o os - zmin o os + 1))).
Proof.
  unfold asfreq_D. destruct pts as [|p pts]; intros H.
  - injection H as <-. left. split; reflexivity.
  - right.
    destruct (dropna (map (fun p => ordinal (fst p)) (p :: pts))) as [|o os];
      [discriminate|].
    destruct (has_duplicates _); [discriminate|].
    injection H as <-. exists o, os. repeat split.
Qed.

(** Whenever line 204 succeeds, the series it hands to the decomposition has
    a regular daily cadence and no NaN: its index is a run of consecutive
    days, every point of the chart sits at its day with its daily delta,
    and every other day holds 0. At most one point of the chart (one dated
    NaT) is left out, so the series is not shorter than the chart by more
    than one point. *)
Theorem decomposition_input_regular (ts : Series Timestamp) (w : nat)
  (s : Series Z) :
  let d := df_ts ts w in
  series_for_decomp d = Ok s ->
  Forall is_number (map snd s)
  /\ match map fst s with
     | [] => True
     | o :: os => consecutive o os
     end
  /\ (forall t v, In (Some t, v) (combine (date d) (new d)) ->
                  In (toordinal t, v) s)
  /\ (forall o v, In (o, v) s ->
                  v = Some 0
                  \/ exists t, toordinal t = o
                               /\ In (Some t, v) (combine (date d) (new d)))
  /\ (List.length ts <= List.length s + 1)%nat.
Proof.
  intros d Hs. unfold series_for_decomp in Hs.
  set (pts := combine (date d) (new d)) in *.
  assert (Hlen : List.length pts = List.length ts).
  { unfold pts. rewrite length_combine.
    destruct (df_ts_lengths ts w) as [H1 H2]. fold d in H1, H2.
    rewrite H1, H2. apply Nat.min_id. }
  assert (Hnum : forall t v, In (t, v) pts -> exists z, v = Some z).
  { intros t v Hin. unfold pts in Hin. apply in_combine_r in Hin.
    unfold d, df_ts in Hin; cbn [new] in Hin.
    rewrite fillna_no_nan in Hin. apply in_map_iff in Hin as (z & <- & _).
    exists z. reflexivity. }
  destruct (asfreq_D pts) as [s0|] eqn:Ha; cbn [rbind] in Hs; [|discriminate].
  injection Hs as <-.
  assert (Hcomb : forall l : Series Z,
            combine (map fst l) (fillna 0 (map snd l))
            = map (fun p => (fst p, match snd p with
                                    | Some z => Some z
                                    | None => Some 0
                                    end)) l).
  { induction l as [|[o v] l IH]; [reflexivity|].
    simpl. rewrite <- IH. destruct v; reflexivity. }
  rewrite Hcomb.
  destruct (asfreq_D_Ok pts s0 Ha) as [[Hp ->]|(o & os & Hvalid & Hdup & ->)].
  { simpl. rewrite <- Hlen, Hp. simpl.
    repeat split; try constructor; try (intros; rewrite Hp in *; contradiction);
      try contradiction; lia. }
  set (lo := zmin o os) in *. set (hi := zmax o os) in *.
  set (n := Z.to_nat (hi - lo + 1)) in *.
  assert (Hs' : map (fun p : Z * float =>
                       (fst p, match snd p with
                               | Some z => Some z
                               | None => Some 0
                               end))
                    (map (fun k => (lo + Z.of_nat k, loc_day (lo + Z.of_nat k) pts))
                         (seq 0 n))
                = map (fun k => (lo + Z.of_nat k,
                                 match loc_day (lo + Z.of_nat k) pts with
                                 | Some z => Some z
                                 | None => Some 0
                                 end))
                      (seq 0 n))
    by (rewrite map_map; reflexivity).
  rewrite Hs'. clear Hs'.
  assert (Hnd : NoDup (map (fun p => ordinal (fst p)) pts))
    by (apply has_duplicates_NoDup, Hdup).
  assert (Hrange : forall t v, In (Some t, v) pts -> lo <= toordinal t <= hi).
  { intros t v Hin. apply zmin_zmax_bounds. rewrite <- Hvalid.
    apply dropna_In.
    apply (in_map (fun p => ordinal (fst p))) in Hin. exact Hin. }
  split; [|split; [|split; [|split]]].
  - rewrite map_map. cbn [snd]. apply Forall_forall. intros c Hc.
    apply in_map_iff in Hc as (k & <- & _).
    destruct (loc_day (lo + Z.of_nat k) pts); eexists; reflexivity.
  - rewrite map_map. cbn [fst].
    destruct n as [|n']; [exact I|].
    cbn [seq map]. exact (consecutive_seq lo n' 0).
  - intros t v Hin. apply in_map_iff.
    destruct (Hrange t v Hin) as [Hlo Hhi].
    exists (Z.to_nat (toordinal t - lo)). split.
    + replace (lo + Z.of_nat (Z.to_nat (toordinal t - lo))) with (toordinal t) by lia.
      rewrite (loc_day_found pts t v Hnd Hin).
      destruct (Hnum _ _ Hin) as [z ->]. reflexivity.
    + apply in_seq. unfold n. lia.
  - intros o' v Hin. apply in_map_iff in Hin as (k & E & _).
    injection E as <- <-.
    destruct (loc_day (lo + Z.of_nat k) pts) as [z|] eqn:El;
      [|left; reflexivity].
    right. destruct (loc_day_In pts _ z El) as (t & Ht & Hin).
    exists t. split; assumption.
  - rewrite length_map, length_seq, <- Hlen.
    rewrite <- (length_map (fun p => ordinal (fst p)) pts).
    pose proof (dropna_NoDup_length _ Hnd) as H1.
    assert (H2 : (List.length (dropna (map (fun p => ordinal (fst p)) pts))
                  <= List.length (map (fun k => (lo + Z.of_nat k)%Z) (seq 0 n)))%nat).
    { apply NoDup_incl_length; [apply dropna_NoDup, Hnd|].
      intros x Hx. apply in_map_iff.
      assert (Hb : lo <= x <= hi)
        by (apply zmin_zmax_bounds; rewrite <- Hvalid; exact Hx).
      exists (Z.to_nat (x - lo)). split; [lia|].
      apply in_seq. unfold n. lia. }
    rewrite length_map, length_seq in H2. lia.
Qed.

Lemma decomposition_input_regular_witness :
  exists s, series_for_decomp (df_ts gap_series 7) = Ok s
            /\ In (toordinal (mkDate 2021 1 31), Some 172) s
            /\ (30 <= List.length s + 1)%nat.
Proof.
  destruct (series_for_decomp (df_ts gap_series 7)) as [s|] eqn:E;
    [|vm_compute in E; discriminate].
  exists s. split; [reflexivity|].
  destruct (decomposition_input_regular gap_series 7 s E)
    as (_ & _ & H3 & _ & H5).
  split; [|exact H5].
  apply H3. vm_compute. repeat (try (left; reflexivity); right).
Defined.

Lemma has_duplicates_repeated (x : option Z) (a b c : list (option Z)) :
  has_duplicates (a ++ x :: b ++ x :: c) = true.
Proof.
  induction a as [|y a IH]; cbn [app has_duplicates].
  - apply orb_true_intro. left. apply existsb_exists.
    exists x. split; [apply in_or_app; right; left; reflexivity|].
    apply same_label_eq. reflexivity.
  - rewrite IH. apply orb_true_r.
Qed.

Lemma chart_labels (ts : Series Timestamp) (w : nat) :
  map (fun p => ordinal (fst p))
      (combine (date (df_ts ts w)) (new (df_ts ts w)))
  = map (fun p => ordinal (fst p)) ts.
Proof.
  destruct (df_ts_lengths ts w) as [H1 H2].
  rewrite <- (map_map fst ordinal), combine_fst by congruence.
  unfold df_ts; cbn [date]. rewrite map_map. reflexivity.
Qed.

(** Two points on the same day switch the decomposition off: when a series
    of 30 points or more holds the same day twice (two spellings of one
    date, say), the reindexing raises, the library is never called and the
    page shows the note that the decomposition is not available. *)
Theorem repeated_day_no_decomposition
  (sd : Series Z -> result Statsmodels.DecomposeResult)
  (w : nat) (page : list Widget)
  (a b c : Series Timestamp) (t t' : Date) (v v' : float) :
  let ts := a ++ (Some t, v) :: b ++ (Some t', v') :: c in
  (30 <= List.length ts)%nat ->
  toordinal t = toordinal t' ->
  decomposition sd (df_ts ts w) page
  = (Ok tt, page ++ [st_info_exn "Decomposition not available: "
                       ValueError_duplicate_labels]).
Proof.
  intros ts Hlen Hday.
  destruct (df_ts_lengths ts w) as [H1 H2].
  rewrite decomposition_run, H1.
  apply Nat.leb_le in Hlen. rewrite Hlen.
  assert (E : series_for_decomp (df_ts ts w) = Raise ValueError_duplicate_labels).
  { unfold series_for_decomp, asfreq_D.
    destruct (combine (date (df_ts ts w)) (new (df_ts ts w))) as [|p ps] eqn:Hc.
    - exfalso. apply (f_equal (@List.length _)) in Hc.
      rewrite length_combine, H1, H2, Nat.min_id in Hc.
      apply Nat.leb_le in Hlen. simpl in Hc. lia.
    - rewrite <- Hc, chart_labels. unfold ts.
      rewrite !map_app. cbn [map fst ordinal option_map].
      rewrite !map_app. cbn [map fst ordinal option_map].
      rewrite Hday.
      rewrite has_duplicates_repeated.
      destruct (dropna _) as [|o os] eqn:Hd; [|reflexivity].
      exfalso.
      assert (Hin : In (toordinal t')
                (dropna (map (fun p : Timestamp * float => ordinal (fst p)) a ++
                         Some (toordinal t')
                         :: map (fun p : Timestamp * float => ordinal (fst p)) b ++
                            Some (toordinal t')
                            :: map (fun p : Timestamp * float => ordinal (fst p)) c))).
      { apply dropna_In. apply in_or_app. right. left. reflexivity. }
      rewrite Hd in Hin. contradiction. }
  rewrite E. reflexivity.
Qed.

Lemma repeated_day_no_decomposition_witness :
  decomposition statsmodels_call (df_ts repeated_series 7) []
  = (Ok tt, [st_info_exn "Decomposition not available: "
               ValueError_duplicate_labels]).
Proof.
  apply (repeated_day_no_decomposition statsmodels_call 7 [] []
           [] (tl (firstn 29 daily_series)) (mkDate 2021 1 1) (mkDate 2021 1 1)
           (Some 0) (Some 4)).
  - vm_compute. lia.
  - reflexivity.
Defined.

(** ** The export determines the table *)

Section ExportFacts.

Variable quote_cr : bool.
Variable str_cell : Value -> string.

Lemma list_ascii_of_string_inj (a b : string) :
  list_ascii_of_string a = list_ascii_of_string b -> a = b.
Proof.
  intros H. rewrite <- (string_of_list_ascii_of_string a),
                    <- (string_of_list_ascii_of_string b), H. reflexivity.
Qed.

(** Two tables with the same export have the same column names, the same
    number of rows and, cell by cell, the same text: the quoting loses
    nothing, whatever commas, quotes or line breaks the cells hold. *)
Theorem export_determines_table (df1 df2 : DataFrame) :
  to_csv quote_cr str_cell df1 = to_csv quote_cr str_cell df2 ->
  columns df1 = columns df2
  /\ List.length (records df1) = List.length (records df2)
  /\ csv_rows str_cell df1 = csv_rows str_cell df2.
Proof.
  intros H. apply (f_equal read_csv) in H.
  unfold to_csv in H. rewrite !read_rows in H.
  injection H as Hh Hr. split; [|split].
  - unfold csv_header in Hh. revert Hh.
    generalize (columns df1) (columns df2).
    induction l as [|x l IH]; intros [|y l'] E; try discriminate;
      [reflexivity|].
    simpl in E. injection E as Exy El.
    f_equal; [apply list_ascii_of_string_inj, Exy | apply IH, El].
  - apply (f_equal (@List.length _)) in Hr. unfold csv_rows in Hr.
    rewrite !length_map in Hr. exact Hr.
  - exact Hr.
Qed.

End ExportFacts.

Lemma export_determines_table_witness :
  columns (DataFrame_of_json [[("country", Str "X"); ("cases", Num 7)]])
  = columns (DataFrame_of_json [[("country", Str "X"); ("cases", Str "7")]])
  /\ List.length
       (records (DataFrame_of_json [[("country", Str "X"); ("cases", Num 7)]]))
     = List.length
         (records (DataFrame_of_json [[("country", Str "X"); ("cases", Str "7")]]))
  /\ csv_rows str_cell_example
       (DataFrame_of_json [[("country", Str "X"); ("cases", Num 7)]])
     = csv_rows str_cell_example
         (DataFrame_of_json [[("country", Str "X"); ("cases", Str "7")]]).
Proof.
  apply (export_determines_table true str_cell_example).
  vm_compute. reflexivity.
Defined.

(** ** The run of the whole page *)

Section PageFacts.

Variable Figure : Type.
Variable imshow_corr : list (list Value) -> result Figure.
Variable px_scatter : DataFrame -> option string -> result Figure.
Variable px_choropleth : DataFrame -> result Figure.
Variable sd : Series Z -> result Statsmodels.DecomposeResult.
Variable quote_cr : bool.
Variable str_cell : Value -> string.

Lemma embed_time_series (c m : string) (w : nat) (g : result (list Hist))
  (o : result Hist) (items : list (Item Figure)) :
  embed Figure (time_series_section sd c m w g o) items
  = (Finished tt,
     items ++ map shown (snd (time_series_section sd c m w g o []))).
Proof.
  unfold embed.
  pose proof (time_series_section_returns sd c m w g o []) as H.
  destruct (time_series_section sd c m w g o []) as [r ws].
  simpl in H. subst r. reflexivity.
Qed.

Lemma embed_kpi (df : DataFrame) (country : string)
  (items : list (Item Figure)) :
  embed Figure (kpi_section df country) items
  = match totals df country with
    | Ok t => (Finished tt, items ++ map shown (kpi_row t))
    | Raise e => (Crashed e, items)
    end.
Proof.
  unfold embed, kpi_section, bind, lift, show.
  destruct (totals df country) as [t|e]; cbn [map app].
  - reflexivity.
  - rewrite app_nil_r. reflexivity.
Qed.

Lemma embed_download (df : DataFrame) (items : list (Item Figure)) :
  embed Figure (download_section quote_cr str_cell df) items
  = (Finished tt,
     items ++ [shown (st_download_button "Download summary CSV"
                        (to_csv quote_cr str_cell df)
                        "covid_summary.csv" "text/csv")]).
Proof. reflexivity. Qed.

Lemma peel_front {A : Type} (x r p t : list A) :
  r = p ++ t -> x ++ r = (x ++ p) ++ t.
Proof. intros ->. apply app_assoc. Qed.

Ltac run_page :=
  unfold page, load_summary, sidebar, upper_page, correlation_section,
    scatter_section, map_section, download_and_notes,
    pbind, put, plift, pret, st_stop;
  cbv beta iota.

Ltac next_call :=
  cbv beta iota;
  match goal with
  | |- context [embed _ (kpi_section _ _) _] => rewrite !embed_kpi
  | |- context [embed _ (time_series_section _ _ _ _ _ _) _] =>
      rewrite !embed_time_series
  | |- context [embed _ (download_section _ _ _) _] => rewrite !embed_download
  end.

Ltac page_cases :=
  run_page;
  destruct (country_list _) as [l|e1]; cbv beta iota;
  [ next_call;
    destruct (totals _ _) as [t|e2]; cbv beta iota;
    [ destruct (corr_df _) as [c|e3]; cbv beta iota;
      [ destruct (imshow_corr _) as [f1|e4]; cbv beta iota;
        [ destruct (px_scatter _ _) as [f2|e5]; cbv beta iota;
          [ destruct (set_iso2 _) as [df'|e6] eqn:Hiso; cbv beta iota;
            [ destruct (px_choropleth _) as [f3|e7] eqn:Hmap; cbv beta iota;
              [ next_call; next_call; cbv beta iota | ]
            | ]
          | ]
        | ]
      | ]
    | ]
  | ].

(** The run stops at [st.stop()] exactly when the summary cannot be loaded;
    all that is shown then is the error with the exception, and nothing of
    the sidebar or of the page below it. *)
Theorem stops_only_without_summary
  (summary : result (list (list (string * Value))))
  (country metric : string) (w : nat)
  (g : result (list Hist)) (o : result Hist) (items : list (Item Figure)) :
  (forall e, summary = Raise e ->
     page Figure imshow_corr px_scatter px_choropleth sd quote_cr str_cell
       summary country metric w g o items
     = (Stopped, items ++ [shown (st_error "Failed to load summary data" e)]))
  /\ (fst (page Figure imshow_corr px_scatter px_choropleth sd quote_cr
             str_cell summary country metric w g o items) = Stopped ->
      exists e, summary = Raise e).
Proof.
  split.
  - intros e ->. reflexivity.
  - destruct summary as [js|e]; [|intros _; exists e; reflexivity].
    page_cases; discriminate.
Qed.

(** When the KPIs cannot be computed (the chosen country has no number in
    one of its three counts, say), the exception is caught by nothing: the
    run ends with it right below the title and the data-source line, with no
    KPI and none of the sections that follow. *)
Theorem kpi_failure_crashes (js : list (list (string * Value)))
  (country metric : string) (w : nat)
  (g : result (list Hist)) (o : result Hist) (items : list (Item Figure))
  (l : list string) (e : exn) :
  country_list (DataFrame_of_json js) = Ok l ->
  totals (DataFrame_of_json js) country = Raise e ->
  page Figure imshow_corr px_scatter px_choropleth sd quote_cr str_cell
    (Ok js) country metric w g o items
  = (Crashed e,
     items ++
     [text sidebar_title "COVID-19 Dashboard";
      text sidebar_markdown
        "Select options to filter the data and update visualizations.";
      selectbox "Select country" ("Global" :: l);
      selectbox "Metric for time series"
        ["cases"; "deaths"; "recovered"; "tests"];
      slider "Moving average window (days)" 1 30 7;
      text title "COVID-19 Interactive Dashboard";
      text markdown
        "Data source: disease.sh (aggregated Johns Hopkins / other public sources) — used for demonstration and assignment EDA."]).
Proof.
  intros Hl Ht. run_page. rewrite Hl. next_call. rewrite Ht. cbv beta iota.
  rewrite <- !app_assoc. reflexivity.
Qed.

(** A run that reaches its last line ends with the download: the summary
    was loaded, the table got its iso2 column, the map was drawn from that
    table, and the file offered is the export of that same table, between
    the introduction of the section and the closing note. *)
Theorem finished_page_ends_with_export
  (summary : result (list (list (string * Value))))
  (country metric : string) (w : nat)
  (g : result (list Hist)) (o : result Hist)
  (items items' : list (Item Figure)) :
  page Figure imshow_corr px_scatter px_choropleth sd quote_cr str_cell
    summary country metric w g o items = (Finished tt, items') ->
  exists js df' fig pre,
    summary = Ok js
    /\ set_iso2 (DataFrame_of_json js) = Ok df'
    /\ px_choropleth df' = Ok fig
    /\ items' = items ++ pre ++ export_items (to_csv quote_cr str_cell df').
Proof.
  destruct summary as [js|e]; [|discriminate].
  page_cases; try discriminate.
  intros H. apply (f_equal snd) in H. cbn [snd] in H. subst items'.
  rewrite <- !app_assoc.
  exists js, df', f3. eexists.
  split; [reflexivity|]. split; [exact Hiso|]. split; [exact Hmap|].
  apply (f_equal (app items)).
  do 20 eapply peel_front. exact (eq_refl : _ = [] ++ _).
Qed.

(** How a run ends does not depend on the historical data: the metric, the
    window, the outcome of the two historical fetches and the content of
    what they return change what the time-series section shows, never
    whether the run finishes, stops or ends with an exception, nor which
    one. *)
Theorem history_never_decides
  (summary : result (list (list (string * Value))))
  (country metric metric' : string) (w w' : nat)
  (g g' : result (list Hist)) (o o' : result Hist)
  (items items' : list (Item Figure)) :
  fst (page Figure imshow_corr px_scatter px_choropleth sd quote_cr str_cell
         summary country metric w g o items)
  = fst (page Figure imshow_corr px_scatter px_choropleth sd quote_cr str_cell
           summary country metric' w' g' o' items').
Proof.
  destruct summary as [js|e]; [|reflexivity].
  page_cases; reflexivity.
Qed.

(** A run that does not reach its last line never offers the download. *)
Theorem no_export_unless_finished
  (summary : result (list (list (string * Value))))
  (country metric : string) (w : nat)
  (g : result (list Hist)) (o : result Hist) :
  fst (page Figure imshow_corr px_scatter px_choropleth sd quote_cr str_cell
         summary country metric w g o []) <> Finished tt ->
  existsb is_download
    (snd (page Figure imshow_corr px_scatter px_choropleth sd quote_cr str_cell
            summary country metric w g o [])) = false.
Proof.
  destruct summary as [js|e]; [|reflexivity].
  page_cases; intros H;
    first [ exfalso; apply H; reflexivity
          | rewrite ?existsb_app; reflexivity ].
Qed.

End PageFacts.

Lemma kpi_failure_crashes_witness :
  page unit (fun _ => Ok tt) (fun _ _ => Ok tt) (fun _ => Ok tt)
    statsmodels_call true str_cell_example
    (Ok summary_json) "Y" "cases" 7 (Ok two_countries) (Ok hist_iso) []
  = (Crashed ValueError_int_of_nan,
     [] ++
     [text sidebar_title "COVID-19 Dashboard";
      text sidebar_markdown
        "Select options to filter the data and update visualizations.";
      selectbox "Select country" ["Global"; "X"; "Y"];
      selectbox "Metric for time series"
        ["cases"; "deaths"; "recovered"; "tests"];
      slider "Moving average window (days)" 1 30 7;
      text title "COVID-19 Interactive Dashboard";
      text markdown
        "Data source: disease.sh (aggregated Johns Hopkins / other public sources) — used for demonstration and assignment EDA."]).
Proof.
  exact (kpi_failure_crashes unit (fun _ => Ok tt) (fun _ _ => Ok tt)
           (fun _ => Ok tt) statsmodels_call true str_cell_example
           summary_json "Y" "cases" 7 (Ok two_countries) (Ok hist_iso) []
           ["X"; "Y"] ValueError_int_of_nan eq_refl eq_refl).
Defined.

Lemma finished_page_ends_with_export_witness :
  exists js df' fig pre,
    Ok summary_json = Ok js
    /\ set_iso2 (DataFrame_of_json js) = Ok df'
    /\ (fun _ : DataFrame => Ok tt) df' = Ok fig
    /\ snd (page unit (fun _ => Ok tt) (fun _ _ => Ok tt) (fun _ => Ok tt)
              statsmodels_call true str_cell_example
              (Ok summary_json) "Global" "cases" 7
              (Ok two_countries) (Ok hist_iso) [])
       = [] ++ pre ++ export_items (to_csv true str_cell_example df').
Proof.
  apply (finished_page_ends_with_export unit (fun _ => Ok tt)
           (fun _ _ => Ok tt) (fun _ => Ok tt) statsmodels_call true
           str_cell_example (Ok summary_json) "Global" "cases" 7
           (Ok two_countries) (Ok hist_iso) []).
  vm_compute. reflexivity.
Defined.

Lemma no_export_unless_finished_witness :
  existsb is_download
    (snd (page unit (fun _ => Ok tt) (fun _ _ => Ok tt) (fun _ => Ok tt)
            statsmodels_call true str_cell_example
            (Ok summary_json) "Y" "cases" 7
            (Ok two_countries) (Ok hist_iso) [])) = false.
Proof.
  apply (no_export_unless_finished unit (fun _ => Ok tt)
           (fun _ _ => Ok tt) (fun _ => Ok tt) statsmodels_call true
           str_cell_example (Ok summary_json) "Y" "cases" 7
           (Ok two_countries) (Ok hist_iso)).
  vm_compute. discriminate.
Defined.

(** ** The table of the correlation matrix *)

(** The table handed to the correlation has the five numeric columns and
    one row per country, holds no missing value, and differs from the
    summary only where a value was missing, which became 0; when one of the
    five columns is absent, the selection raises a KeyError for a column
    that is absent. *)
Theorem correlation_table (df : DataFrame) :
  match corr_df df with
  | Ok rows =>
      Forall (fun c => has_column df c = true) numeric_cols
      /\ Forall2 (fun r row =>
                    Forall2 (fun c v =>
                               isna v = false
                               /\ (v = cell r c
                                   \/ isna (cell r c) = true /\ v = Num 0))
                            numeric_cols row)
                 (records df) rows
  | Raise e =>
      exists c, In c numeric_cols /\ has_column df c = false
                /\ e = KeyError c
  end.
Proof.
  unfold corr_df, select_columns.
  destruct (find _ numeric_cols) as [c|] eqn:Hf; cbn [rbind].
  - apply find_some in Hf. destruct Hf as [Hin Hc].
    exists c. repeat split; [exact Hin|].
    apply negb_true_iff in Hc. exact Hc.
  - split.
    + apply Forall_forall. intros c Hin.
      pose proof (find_none _ _ Hf c Hin) as Hc.
      apply negb_false_iff in Hc. exact Hc.
    + unfold fillna_cells. rewrite map_map.
      induction (records df) as [|r rs IH]; cbn [map]; constructor; [|exact IH].
      clear. induction numeric_cols as [|c cs IH]; cbn [map]; constructor;
        [|exact IH].
      destruct (cell r c); cbn; split; auto.
Qed.
